(** * OpenGL STL slicer ([app_qt.py]): model and verified properties

  The program slices a triangle mesh layer by layer: a Qt window repaints
  itself until the cutting height reaches the top of the solid, and every
  repaint renders one cross-section with a stencil-buffer trick, first on
  screen ([Window.draw]) and then into an offscreen framebuffer whose
  content is saved as a PNG ([Window.renderSlice]).

  The embedding follows the source method by method.

  - Python floats are an interface [Arith]; [binary64] implements it with
    IEEE doubles, what CPython computes, evaluated with Rocq's primitive
    floats.  Statements are made for every [Arith], so that they hold for
    the program as it runs; where a statement needs an arithmetic fact
    (an addition that does not round, a comparison of exact values), the
    fact is a hypothesis, and it is discharged by computation on binary64
    inputs.
  - [QMatrix4x4], the OpenGL context, the shaders, the [printer]
    configuration module and the file system are not part of the
    repository.  Matrices are Qt's: entries in single precision, every
    argument and every result rounded to a C [float]; the GL context is a
    small state machine over the calls the program issues; the GPU
    rasterizer, the fragment colour, the grey conversion and the outcome of
    [QImage.save] are parameters ([Env]). *)

From Stdlib Require Import ZArith QArith Qround Qpower Lqa Lia List Bool String Ascii.
From Stdlib Require Import DecimalString.
From Stdlib Require DecimalN.
From Stdlib Require Import PrimFloat FloatOps SpecFloat.
Import ListNotations.

Set Warnings "-inexact-float".
Local Open Scope Z_scope.

(** ** Arithmetic of Python floats *)

Class Arith : Type := {
  num : Type;
  of_int : Z -> num;          (* int -> float promotion in mixed arithmetic *)
  add : num -> num -> num;
  sub : num -> num -> num;
  mul : num -> num -> num;
  div : num -> num -> num;
  opp : num -> num;
  geb : num -> num -> bool;   (* [>=] *)
  single : num -> num;        (* rounding to numpy.float32 / GLfloat *)
  EPSILON : num;              (* the module constant 0.00001 *)
  toQ : num -> Q              (* exact value of a finite number *)
}.

(** *** IEEE binary64, the arithmetic of CPython *)

Module Binary64.

Definition of_int (z : Z) : float :=
  SF2Prim (binary_normalize prec emax z 0 false).

(** The value of a finite double as a rational; infinities and NaN, which
    have none, are sent to 0. *)
Definition toQ (x : float) : Q :=
  match Prim2SF x with
  | S754_finite s m e =>
      ((if s then Zneg m else Zpos m) # 1) * Qpower 2 e
  | _ => 0
  end%Q.

(** Rounding to single precision (24-bit significand, to nearest even). *)
Definition single (x : float) : float :=
  match Prim2SF x with
  | S754_finite s m e => SF2Prim (binary_round 24 128 s m e)
  | _ => x
  end.

End Binary64.

Definition binary64 : Arith := {|
  num := float;
  of_int := Binary64.of_int;
  add := PrimFloat.add;
  sub := PrimFloat.sub;
  mul := PrimFloat.mul;
  div := PrimFloat.div;
  opp := PrimFloat.opp;
  geb := fun x y => PrimFloat.leb y x;
  single := Binary64.single;
  EPSILON := 0.00001%float;
  toQ := Binary64.toQ
|}.

(** ** QMatrix4x4, in single precision *)

Module QMatrix4x4.

Section Single_precision.

Context {A : Arith}.

Definition vec4 : Type := num * num * num * num.

(** The sixteen entries, row by row ([m r c] here is Qt's [m[c][r]]), and
    what Qt knows of the matrix, which selects the arithmetic of an
    operation. *)
Record t : Type := {
  m : vec4 * vec4 * vec4 * vec4;
  flagBits : Z
}.

Definition Identity : Z := 0x0000.
Definition Translation : Z := 0x0001.
Definition Scale : Z := 0x0002.
Definition Rotation2D : Z := 0x0004.
Definition Rotation : Z := 0x0008.
Definition Perspective : Z := 0x0010.
Definition General : Z := 0x001f.

(** The arithmetic of C [float]s: the result of every operation is
    rounded to single precision. *)
Definition fadd (x y : num) : num := single (add x y).
Definition fsub (x y : num) : num := single (sub x y).
Definition fmul (x y : num) : num := single (mul x y).
Definition fdiv (x y : num) : num := single (div x y).
(** [x == y] *)
Definition feq (x y : num) : bool := geb x y && geb y x.

Definition identity : t :=
  let o := of_int 0 in
  let i := of_int 1 in
  {| m := ((i, o, o, o), (o, i, o, o), (o, o, i, o), (o, o, o, i));
     flagBits := Identity |}.

Definition setToIdentity (_ : t) : t := identity.

Definition dot (u v : vec4) : num :=
  let '(a0, a1, a2, a3) := u in
  let '(b0, b1, b2, b3) := v in
  fadd (fadd (fadd (fmul a0 b0) (fmul a1 b1)) (fmul a2 b2)) (fmul a3 b3).

(** [a *= o] *)
Definition mult (a o : t) : t :=
  let f := Z.lor (flagBits a) (flagBits o) in
  let '((a00, a01, a02, a03), (a10, a11, a12, a13),
        (a20, a21, a22, a23), (a30, a31, a32, a33)) := m a in
  let '((o00, o01, o02, o03), (o10, o11, o12, o13),
        (o20, o21, o22, o23), (o30, o31, o32, o33)) := m o in
  if f <? Rotation2D then
    {| m := ((fmul a00 o00, a01, a02, fadd a03 (fmul a00 o03)),
             (a10, fmul a11 o11, a12, fadd a13 (fmul a11 o13)),
             (a20, a21, fmul a22 o22, fadd a23 (fmul a22 o23)),
             (a30, a31, a32, a33));
       flagBits := f |}
  else
    let row (r : vec4) : vec4 :=
      (dot r (o00, o10, o20, o30), dot r (o01, o11, o21, o31),
       dot r (o02, o12, o22, o32), dot r (o03, o13, o23, o33)) in
    {| m := (row (a00, a01, a02, a03), row (a10, a11, a12, a13),
             row (a20, a21, a22, a23), row (a30, a31, a32, a33));
       flagBits := f |}.

(** [translate(x, y, z)]: the arguments are converted to C [float]s; on
    an identity matrix the translation is stored, on a translation it is
    added, entry by entry. *)
Definition translate (a : t) (x y z : num) : t :=
  let x := single x in
  let y := single y in
  let z := single z in
  let f := flagBits a in
  let '((m00, m01, m02, m03), (m10, m11, m12, m13),
        (m20, m21, m22, m23), (m30, m31, m32, m33)) := m a in
  let '(t0, t1, t2, t3) :=
    if f =? Identity then (x, y, z, m33)
    else if f =? Translation then (fadd m03 x, fadd m13 y, fadd m23 z, m33)
    else if f =? Scale then (fmul m00 x, fmul m11 y, fmul m22 z, m33)
    else if f =? Z.lor Translation Scale then
      (fadd m03 (fmul m00 x), fadd m13 (fmul m11 y), fadd m23 (fmul m22 z), m33)
    else if f <? Rotation then
      (fadd m03 (fadd (fmul m00 x) (fmul m01 y)),
       fadd m13 (fadd (fmul m10 x) (fmul m11 y)),
       fadd m23 (fmul m22 z),
       m33)
    else
      (fadd m03 (fadd (fadd (fmul m00 x) (fmul m01 y)) (fmul m02 z)),
       fadd m13 (fadd (fadd (fmul m10 x) (fmul m11 y)) (fmul m12 z)),
       fadd m23 (fadd (fadd (fmul m20 x) (fmul m21 y)) (fmul m22 z)),
       fadd m33 (fadd (fadd (fmul m30 x) (fmul m31 y)) (fmul m32 z))) in
  {| m := ((m00, m01, m02, t0), (m10, m11, m12, t1),
           (m20, m21, m22, t2), (m30, m31, m32, t3));
     flagBits := Z.lor f Translation |}.

(** [ortho(left, right, bottom, top, nearPlane, farPlane)]: a zero-sized
    volume leaves the matrix as it is; otherwise the matrix is multiplied
    by the orthographic matrix of the volume, built in C [float]s. *)
Definition ortho (a : t) (left right bottom top nearPlane farPlane : num) : t :=
  let left := single left in
  let right := single right in
  let bottom := single bottom in
  let top := single top in
  let nearPlane := single nearPlane in
  let farPlane := single farPlane in
  if feq left right || feq bottom top || feq nearPlane farPlane then a
  else
    let width := fsub right left in
    let invheight := fsub top bottom in
    let clip := fsub farPlane nearPlane in
    let o := of_int 0 in
    mult a
      {| m := ((fdiv (of_int 2) width, o, o, fdiv (opp (fadd left right)) width),
               (o, fdiv (of_int 2) invheight, o,
                fdiv (opp (fadd top bottom)) invheight),
               (o, o, fdiv (of_int (-2)) clip,
                fdiv (opp (fadd nearPlane farPlane)) clip),
               (o, o, o, of_int 1));
         flagBits := Z.lor Translation Scale |}.


End Single_precision.

End QMatrix4x4.

(** ** OpenGL enumerants used by the program *)

Inductive face : Set := GL_FRONT | GL_BACK.
Inductive capability : Set := GL_STENCIL_TEST | GL_CULL_FACE.
Inductive func : Set := GL_ALWAYS | GL_NOTEQUAL.
Inductive op : Set := GL_KEEP | GL_INCR | GL_DECR.

Definition GL_STENCIL_BUFFER_BIT : Z := 0x400.
Definition GL_COLOR_BUFFER_BIT : Z := 0x4000.

(** The two vertex array objects the window owns. *)
Inductive vao : Set := vertVAO | maskVAO.

(** ** Exceptions *)

(** [ValueError] is what numpy raises for the minimum of an empty array.
  The other three are the error kinds the specification names; no
  statement of the source raises them. *)
Inductive exn : Set :=
| ValueError
| InvalidMeshError
| DegenerateVolumeError
| ExportFailure.

Inductive result (T : Type) : Type :=
| Ok (x : T)
| Raise (e : exn).
Arguments Ok {T} x.
Arguments Raise {T} e.

(** ** File names *)

Definition pad (width : nat) (s : string) : string :=
  String.concat EmptyString (repeat "0" (width - String.length s))%string ++ s.

(** ['{:04d}'.format(n)] *)
Definition format_04d (n : Z) : string :=
  match n with
  | Zneg p => "-" ++ pad 3 (NilZero.string_of_uint (Pos.to_uint p))
  | _ => pad 4 (NilZero.string_of_uint (N.to_uint (Z.to_N n)))
  end%string.

Definition ends_with_slash (s : string) : bool :=
  match String.get (String.length s - 1) s with
  | Some c => Ascii.eqb c "/"
  | None => false
  end.

(** [os.path.join(a, b)] for a relative [b] (POSIX). *)
Definition path_join (a b : string) : string :=
  if String.eqb a EmptyString || ends_with_slash a then a ++ b else a ++ "/" ++ b.

Definition range (n : Z) : list Z := List.map Z.of_nat (seq 0 (Z.to_nat n)).

(** The pixels of a [w] x [h] image, row by row. *)
Definition pixels (w h : Z) : list (Z * Z) :=
  flat_map (fun y => List.map (fun x => (x, y)) (range w)) (range h).

(** ** The program *)

Section Program.

Context {A : Arith}.

Definition vertex : Type := num * num * num.
Definition triangle : Type := vertex * vertex * vertex.
(** [ourMesh.vectors]: an array of shape (n, 3, 3). *)
Definition Mesh : Type := list triangle.

Definition colour : Type := num * num * num * num.

(** *** Calls on the GL context and on the Qt objects wrapping it *)

Inductive call : Type :=
| glViewport (x y w h : Z)
| glEnable (c : capability)
| glDisable (c : capability)
| glClearColor (r g b a : num)
| glClear (mask : Z)
| glCullFace (f : face)
| glStencilFunc (f : func) (ref mask : Z)
| glStencilOp (sfail dpfail dppass : op)
| glDrawArrays (first count : Z)           (* mode GL_TRIANGLES *)
| VAO_bind (v : vao)
| VAO_release (v : vao)
| VBO_allocate (v : vao) (data : list vertex)
| shaderProg_bind
| shaderProg_release
| setUniformValue (name : string) (m : QMatrix4x4.t)
| sliceFbo_bind
| sliceFbo_release.

(** *** The GL context *)

Record framebuffer : Type := {
  color_buffer : Z * Z -> colour;
  stencil_buffer : Z * Z -> Z
}.

Record GLstate : Type := {
  viewport : Z * Z * Z * Z;
  stencil_test : bool;
  cull_face : bool;
  cull_mode : face;
  clear_color : colour;
  stencil_func : func * Z * Z;
  stencil_op : op * op * op;
  bound_vao : option vao;
  vbo : vao -> list vertex;
  program_bound : bool;
  uniform : string -> option QMatrix4x4.t;
  fbo_bound : bool;                  (* sliceFbo rather than the window *)
  window_fb : framebuffer;
  slice_fb : framebuffer
}.

(** What lies outside the repository. *)
Record Env : Type := {
  printer_width : Z;                 (* printer.width, in pixels *)
  printer_height : Z;                (* printer.height, in pixels *)
  printer_pixel : num;               (* printer.pixel, the pixel pitch *)
  (** The fragments a draw call produces, in order: vertex data, first,
      count, the [proj] and [model] uniforms of [shaders/slice.vert], the
      viewport and the culled face (if culling is enabled). *)
  rasterize : list vertex -> Z -> Z ->
              option QMatrix4x4.t -> option QMatrix4x4.t ->
              Z * Z * Z * Z -> option face -> list (Z * Z);
  (** The colour [shaders/slice.frag] writes. *)
  fragment_color : colour;
  (** A pixel after [convertToFormat(Format_Grayscale8)]. *)
  grayscale : colour -> Z;
  (** Whether [QImage.save] succeeds for a path. *)
  save_ok : string -> bool
}.

Variable env : Env.

Definition update {T : Type} (f : Z * Z -> T) (p : Z * Z) (v : T) : Z * Z -> T :=
  fun q => if (fst q =? fst p) && (snd q =? snd p) then v else f q.

Definition stencil_passes (f : func) (ref mask s : Z) : bool :=
  match f with
  | GL_ALWAYS => true
  | GL_NOTEQUAL => negb (Z.land ref mask =? Z.land s mask)
  end.

(** Stencil operations on the 8-bit buffer the surface format asks for:
    GL_INCR and GL_DECR clamp. *)
Definition stencil_apply (o : op) (s : Z) : Z :=
  match o with
  | GL_KEEP => s
  | GL_INCR => Z.min 255 (s + 1)
  | GL_DECR => Z.max 0 (s - 1)
  end.

(** One fragment, under the stencil configuration of the draw call; there
    is no depth test, so a fragment that passes the stencil test takes the
    third operation. *)
Definition fragment (test : bool) (sf : func * Z * Z) (so : op * op * op)
    (fb : framebuffer) (p : Z * Z) : framebuffer :=
  if test then
    let '(f, ref, mask) := sf in
    let '(sfail, _, dppass) := so in
    let s := stencil_buffer fb p in
    if stencil_passes f ref mask s then
      {| color_buffer := update (color_buffer fb) p (fragment_color env);
         stencil_buffer := update (stencil_buffer fb) p (stencil_apply dppass s) |}
    else
      {| color_buffer := color_buffer fb;
         stencil_buffer := update (stencil_buffer fb) p (stencil_apply sfail s) |}
  else
    {| color_buffer := update (color_buffer fb) p (fragment_color env);
       stencil_buffer := stencil_buffer fb |}.

Definition current_fb (g : GLstate) : framebuffer :=
  if fbo_bound g then slice_fb g else window_fb g.

Definition with_current_fb (fb : framebuffer) (g : GLstate) : GLstate :=
  {| viewport := viewport g; stencil_test := stencil_test g;
     cull_face := cull_face g; cull_mode := cull_mode g;
     clear_color := clear_color g; stencil_func := stencil_func g;
     stencil_op := stencil_op g; bound_vao := bound_vao g; vbo := vbo g;
     program_bound := program_bound g; uniform := uniform g;
     fbo_bound := fbo_bound g;
     window_fb := if fbo_bound g then window_fb g else fb;
     slice_fb := if fbo_bound g then fb else slice_fb g |}.

Definition cleared (g : GLstate) (mask : Z) (fb : framebuffer) : framebuffer :=
  {| color_buffer :=
       if Z.land mask GL_COLOR_BUFFER_BIT =? 0 then color_buffer fb
       else fun _ => clear_color g;
     stencil_buffer :=
       if Z.land mask GL_STENCIL_BUFFER_BIT =? 0 then stencil_buffer fb
       else fun _ => 0 |}.

Definition drawn (g : GLstate) (first count : Z) (fb : framebuffer) : framebuffer :=
  match bound_vao g, program_bound g with
  | Some v, true =>
      fold_left (fragment (stencil_test g) (stencil_func g) (stencil_op g))
        (rasterize env (vbo g v) first count
           (uniform g "proj") (uniform g "model") (viewport g)
           (if cull_face g then Some (cull_mode g) else None))
        fb
  | _, _ => fb
  end.

Definition exec (c : call) (g : GLstate) : GLstate :=
  let set vp st cf cm cc sf so bv vb pb un fb :=
    {| viewport := vp; stencil_test := st; cull_face := cf; cull_mode := cm;
       clear_color := cc; stencil_func := sf; stencil_op := so;
       bound_vao := bv; vbo := vb; program_bound := pb; uniform := un;
       fbo_bound := fb; window_fb := window_fb g; slice_fb := slice_fb g |} in
  let vp := viewport g in let st := stencil_test g in
  let cf := cull_face g in let cm := cull_mode g in
  let cc := clear_color g in let sf := stencil_func g in
  let so := stencil_op g in let bv := bound_vao g in let vb := vbo g in
  let pb := program_bound g in let un := uniform g in let fb := fbo_bound g in
  match c with
  | glViewport x y w h => set (x, y, w, h) st cf cm cc sf so bv vb pb un fb
  | glEnable GL_STENCIL_TEST => set vp true cf cm cc sf so bv vb pb un fb
  | glEnable GL_CULL_FACE => set vp st true cm cc sf so bv vb pb un fb
  | glDisable GL_STENCIL_TEST => set vp false cf cm cc sf so bv vb pb un fb
  | glDisable GL_CULL_FACE => set vp st false cm cc sf so bv vb pb un fb
  | glClearColor r g0 b a => set vp st cf cm (r, g0, b, a) sf so bv vb pb un fb
  | glClear mask => with_current_fb (cleared g mask (current_fb g)) g
  | glCullFace f => set vp st cf f cc sf so bv vb pb un fb
  | glStencilFunc f ref mask => set vp st cf cm cc (f, ref, mask) so bv vb pb un fb
  | glStencilOp o1 o2 o3 => set vp st cf cm cc sf (o1, o2, o3) bv vb pb un fb
  | glDrawArrays first count =>
      with_current_fb (drawn g first count (current_fb g)) g
  | VAO_bind v => set vp st cf cm cc sf so (Some v) vb pb un fb
  | VAO_release _ => set vp st cf cm cc sf so None vb pb un fb
  | VBO_allocate v data =>
      set vp st cf cm cc sf so bv
        (fun v' => match v, v' with
                   | vertVAO, vertVAO | maskVAO, maskVAO => data
                   | _, _ => vb v'
                   end) pb un fb
  | shaderProg_bind => set vp st cf cm cc sf so bv vb true un fb
  | shaderProg_release => set vp st cf cm cc sf so bv vb false un fb
  | setUniformValue name m =>
      set vp st cf cm cc sf so bv vb pb
        (fun n => if String.eqb n name then Some m else un n) fb
  | sliceFbo_bind => set vp st cf cm cc sf so bv vb pb un true
  | sliceFbo_release => set vp st cf cm cc sf so bv vb pb un false
  end.

(** A context as [initializeGL] finds it: the GL defaults. *)
Definition fresh_context : GLstate :=
  let black := (of_int 0, of_int 0, of_int 0, of_int 0) in
  let fb := {| color_buffer := fun _ => black; stencil_buffer := fun _ => 0 |} in
  {| viewport := (0, 0, 0, 0); stencil_test := false; cull_face := false;
     cull_mode := GL_BACK; clear_color := black;
     stencil_func := (GL_ALWAYS, 0, 255); stencil_op := (GL_KEEP, GL_KEEP, GL_KEEP);
     bound_vao := None; vbo := fun _ => []; program_bound := false;
     uniform := fun _ => None; fbo_bound := false;
     window_fb := fb; slice_fb := fb |}.

(** *** The window *)

Record Bounds : Type := {
  xmin : num; xmax : num;
  ymin : num; ymax : num;
  zmin : num; zmax : num
}.

(** The attributes of [Window] the methods below read or write, the GL
    context the window owns ([self.gl]), the calls issued on it so far
    (most recent first; kept for the statements about call sequences) and
    the image files written under [sliceSavePath]. *)
Record Window : Type := {
  numOfVerts : Z;
  bounds : option Bounds;            (* [None]: the empty dict *)
  totalThickness : num;
  currentLayer : Z;
  height : num;
  layerThickness : num;
  sliceSavePath : string;
  proj : QMatrix4x4.t;
  model : QMatrix4x4.t;
  size : Z * Z;
  gl : GLstate;
  log : list call;
  files : list (string * list Z)
}.

Definition with_mesh (n : Z) (b : Bounds) (t : num) (self : Window) : Window :=
  {| numOfVerts := n; bounds := Some b; totalThickness := t;
     currentLayer := currentLayer self; height := height self;
     layerThickness := layerThickness self; sliceSavePath := sliceSavePath self;
     proj := proj self; model := model self; size := size self;
     gl := gl self; log := log self; files := files self |}.

Definition with_cursor (layer : Z) (h : num) (self : Window) : Window :=
  {| numOfVerts := numOfVerts self; bounds := bounds self;
     totalThickness := totalThickness self;
     currentLayer := layer; height := h;
     layerThickness := layerThickness self; sliceSavePath := sliceSavePath self;
     proj := proj self; model := model self; size := size self;
     gl := gl self; log := log self; files := files self |}.

Definition with_matrices (p m : QMatrix4x4.t) (self : Window) : Window :=
  {| numOfVerts := numOfVerts self; bounds := bounds self;
     totalThickness := totalThickness self;
     currentLayer := currentLayer self; height := height self;
     layerThickness := layerThickness self; sliceSavePath := sliceSavePath self;
     proj := p; model := m; size := size self;
     gl := gl self; log := log self; files := files self |}.

Definition with_gl (g : GLstate) (l : list call) (self : Window) : Window :=
  {| numOfVerts := numOfVerts self; bounds := bounds self;
     totalThickness := totalThickness self;
     currentLayer := currentLayer self; height := height self;
     layerThickness := layerThickness self; sliceSavePath := sliceSavePath self;
     proj := proj self; model := model self; size := size self;
     gl := g; log := l; files := files self |}.

Definition with_files (fs : list (string * list Z)) (self : Window) : Window :=
  {| numOfVerts := numOfVerts self; bounds := bounds self;
     totalThickness := totalThickness self;
     currentLayer := currentLayer self; height := height self;
     layerThickness := layerThickness self; sliceSavePath := sliceSavePath self;
     proj := proj self; model := model self; size := size self;
     gl := gl self; log := log self; files := fs |}.

Definition resize (w h : Z) (self : Window) : Window :=
  {| numOfVerts := numOfVerts self; bounds := bounds self;
     totalThickness := totalThickness self;
     currentLayer := currentLayer self; height := height self;
     layerThickness := layerThickness self; sliceSavePath := sliceSavePath self;
     proj := proj self; model := model self; size := (w, h);
     gl := gl self; log := log self; files := files self |}.

(** A statement of a method body, and a body as a sequence of them. *)
Definition stmt : Type := Window -> Window.

Definition block (body : list stmt) : stmt :=
  fun self => fold_left (fun w s => s w) body self.

(** [self.gl.f(...)], or a call on a Qt wrapper of a GL object. *)
Definition gl_call (c : Window -> call) : stmt :=
  fun self => with_gl (exec (c self) (gl self)) (c self :: log self) self.

(** The calls a method issues, in order. *)
Definition calls (method : stmt) (self : Window) : list call :=
  rev (log (method (with_gl (gl self) [] self))).

(** [Window.__init__]; [proj] and [model] exist from [initializeGL] on. *)
Definition __init__ (layerThickness : num) (sliceSavePath : string) : Window :=
  {| numOfVerts := 0; bounds := None; totalThickness := of_int 0;
     currentLayer := 0; height := of_int 0;
     layerThickness := layerThickness; sliceSavePath := sliceSavePath;
     proj := QMatrix4x4.identity; model := QMatrix4x4.identity;
     size := (0, 0); gl := fresh_context; log := []; files := [] |}.

(** [ourMesh.vectors[:,:,k]] *)
Definition axis (k : vertex -> num) (ourMesh : Mesh) : list num :=
  flat_map (fun '(a, b, c) => [k a; k b; k c]) ourMesh.

(** [np.min] and [np.max]: the reduction keeps its accumulator when the
    accumulator compares as it should with the next element or is NaN
    ([x >= x] fails for NaN only), and takes the element otherwise, so that
    a NaN, once met, stays. *)
Definition np_min (l : list num) : result num :=
  match l with
  | [] => Raise ValueError
  | x :: xs =>
      Ok (fold_left (fun m y => if geb y m || negb (geb m m) then m else y) xs x)
  end.

Definition np_max (l : list num) : result num :=
  match l with
  | [] => Raise ValueError
  | x :: xs =>
      Ok (fold_left (fun m y => if geb m y || negb (geb m m) then m else y) xs x)
  end.

Definition bind {T U : Type} (r : result T) (k : T -> result U) : result U :=
  match r with
  | Ok x => k x
  | Raise e => Raise e
  end.

Notation "x <- r ;; k" := (bind r (fun x => k))
  (at level 61, r at next level, right associativity).

Definition X (v : vertex) : num := fst (fst v).
Definition Y (v : vertex) : num := snd (fst v).
Definition Z_ (v : vertex) : num := snd v.

(** The mask quad: two triangles covering the build plate. *)
Definition maskVert : list vertex :=
  let w := single (mul (of_int (printer_width env)) (printer_pixel env)) in
  let h := single (mul (of_int (printer_height env)) (printer_pixel env)) in
  let o := single (of_int 0) in
  [(o, o, o); (w, o, o); (w, h, o);
   (o, o, o); (w, h, o); (o, h, o)].

(** [Window.loadMesh], with the parsed file as an argument.  The bounds
    are numpy.float32 scalars, and so is their difference. *)
Definition loadMesh (ourMesh : Mesh) (self : Window) : result Window :=
  let numOfVerts := Z.of_nat (List.length ourMesh) * 3 in
  x0 <- np_min (axis X ourMesh) ;;
  x1 <- np_max (axis X ourMesh) ;;
  y0 <- np_min (axis Y ourMesh) ;;
  y1 <- np_max (axis Y ourMesh) ;;
  z0 <- np_min (axis Z_ ourMesh) ;;
  z1 <- np_max (axis Z_ ourMesh) ;;
  let bounds := {| xmin := x0; xmax := x1; ymin := y0; ymax := y1;
                   zmin := z0; zmax := z1 |} in
  let self := with_mesh numOfVerts bounds (single (sub (zmax bounds) (zmin bounds))) self in
  let data :=
    List.map (fun '(x, y, z) => (single x, single y, single z))
      (flat_map (fun '(a, b, c) => [a; b; c]) ourMesh) in
  Ok (block [
    gl_call (fun _ => VAO_bind vertVAO);
    gl_call (fun _ => VBO_allocate vertVAO data);
    gl_call (fun _ => VAO_release vertVAO);
    gl_call (fun _ => VAO_bind maskVAO);
    gl_call (fun _ => VBO_allocate maskVAO maskVert);
    gl_call (fun _ => VAO_release maskVAO)
  ] self).

(** [Window.initializeGL] *)
Definition initializeGL (ourMesh : Mesh) (self : Window) : result Window :=
  self <- loadMesh ourMesh self ;;
  let proj :=
    QMatrix4x4.ortho (QMatrix4x4.setToIdentity QMatrix4x4.identity)
      (of_int 0) (mul (of_int (printer_width env)) (printer_pixel env))
      (of_int 0) (mul (of_int (printer_height env)) (printer_pixel env))
      (opp (totalThickness self)) (totalThickness self) in
  let model :=
    QMatrix4x4.translate (QMatrix4x4.setToIdentity QMatrix4x4.identity)
      (of_int 0) (of_int 0) (add (totalThickness self) EPSILON) in
  Ok (with_matrices proj model self).

(** [Window.draw] *)
Definition draw : stmt := block [
  gl_call (fun self => glViewport 0 0 (fst (size self)) (snd (size self)));
  gl_call (fun _ => glEnable GL_STENCIL_TEST);
  gl_call (fun _ => glClearColor (of_int 0) (of_int 0) (of_int 0) (of_int 1));
  gl_call (fun _ => glClear (Z.lor GL_COLOR_BUFFER_BIT GL_STENCIL_BUFFER_BIT));
  gl_call (fun _ => VAO_bind vertVAO);
  gl_call (fun _ => shaderProg_bind);

  (fun self =>
     with_matrices (proj self)
       (QMatrix4x4.translate (model self) (of_int 0) (of_int 0)
          (opp (layerThickness self)))
       self);
  gl_call (fun self => setUniformValue "proj" (proj self));
  gl_call (fun self => setUniformValue "model" (model self));

  gl_call (fun _ => glEnable GL_CULL_FACE);
  gl_call (fun _ => glCullFace GL_FRONT);
  gl_call (fun _ => glStencilFunc GL_ALWAYS 0 0xFF);
  gl_call (fun _ => glStencilOp GL_KEEP GL_KEEP GL_INCR);
  gl_call (fun self => glDrawArrays 0 (numOfVerts self));

  gl_call (fun _ => glCullFace GL_BACK);
  gl_call (fun _ => glStencilOp GL_KEEP GL_KEEP GL_DECR);
  gl_call (fun self => glDrawArrays 0 (numOfVerts self));
  gl_call (fun _ => glDisable GL_CULL_FACE);

  gl_call (fun _ => glClear GL_COLOR_BUFFER_BIT);
  gl_call (fun _ => VAO_bind maskVAO);
  gl_call (fun _ => glStencilFunc GL_NOTEQUAL 0 0xFF);
  gl_call (fun _ => glStencilOp GL_KEEP GL_KEEP GL_KEEP);
  gl_call (fun _ => glDrawArrays 0 6);
  gl_call (fun _ => glDisable GL_STENCIL_TEST);
  gl_call (fun _ => shaderProg_release)
].

(** [sliceFbo.toImage()] converted to [Format_Grayscale8]: the local
    variable [image] of [renderSlice]. *)
Definition toImage (self : Window) : list Z :=
  List.map (fun p => grayscale env (color_buffer (slice_fb (gl self)) p))
    (pixels (printer_width env) (printer_height env)).

(** [image.save(...)]; the returned success flag is dropped by the caller. *)
Definition save (image : list Z) (path : string) : stmt :=
  fun self =>
    if save_ok env path then with_files ((path, image) :: files self) self
    else self.

(** The rendering part of [Window.renderSlice], up to the read-back. *)
Definition renderSlice_passes : stmt := block [
  gl_call (fun _ => sliceFbo_bind);
  gl_call (fun _ => glViewport 0 0 (printer_width env) (printer_height env));
  gl_call (fun _ => glEnable GL_STENCIL_TEST);
  gl_call (fun _ => glClearColor (of_int 0) (of_int 0) (of_int 0) (of_int 1));
  gl_call (fun _ => glClear (Z.lor GL_COLOR_BUFFER_BIT GL_STENCIL_BUFFER_BIT));
  gl_call (fun _ => VAO_bind vertVAO);
  gl_call (fun _ => shaderProg_bind);

  gl_call (fun self => setUniformValue "proj" (proj self));
  gl_call (fun self => setUniformValue "model" (model self));

  gl_call (fun _ => glEnable GL_CULL_FACE);
  gl_call (fun _ => glCullFace GL_FRONT);
  gl_call (fun _ => glStencilFunc GL_ALWAYS 0 0xFF);
  gl_call (fun _ => glStencilOp GL_KEEP GL_KEEP GL_INCR);
  gl_call (fun self => glDrawArrays 0 (numOfVerts self));

  gl_call (fun _ => glCullFace GL_BACK);
  gl_call (fun _ => glStencilOp GL_KEEP GL_KEEP GL_DECR);
  gl_call (fun self => glDrawArrays 0 (numOfVerts self));
  gl_call (fun _ => glDisable GL_CULL_FACE);

  gl_call (fun _ => glClear GL_COLOR_BUFFER_BIT);
  gl_call (fun _ => VAO_bind maskVAO);
  gl_call (fun _ => glStencilFunc GL_NOTEQUAL 0 0xFF);
  gl_call (fun _ => glStencilOp GL_KEEP GL_KEEP GL_KEEP);
  gl_call (fun _ => glDrawArrays 0 6);
  gl_call (fun _ => glDisable GL_STENCIL_TEST)
].

(** The raster one call of [renderSlice] reads back. *)
Definition sliceRaster (self : Window) : list Z :=
  toImage (renderSlice_passes self).

(** [Window.renderSlice] *)
Definition renderSlice : stmt := block [
  renderSlice_passes;
  (fun self =>
     let image := toImage self in
     save image
       (path_join (sliceSavePath self)
          ("out" ++ format_04d (currentLayer self) ++ ".png"))
       self);
  gl_call (fun _ => sliceFbo_release)
].

(** The [else] branch of [paintGL]: one layer.  [self.update()] only
    schedules the next repaint. *)
Definition layer : stmt := block [
  (fun self =>
     with_cursor (currentLayer self) (add (height self) (layerThickness self)) self);
  (fun self => with_cursor (currentLayer self + 1) (height self) self);
  draw;
  renderSlice
].

Inductive painted : Type :=
| SystemExit (self : Window)       (* sys.exit() *)
| Updated (self : Window).         (* self.update(): repaint pending *)

(** [Window.paintGL] *)
Definition paintGL (self : Window) : painted :=
  if geb (height self) (sub (totalThickness self) EPSILON)
  then SystemExit self
  else Updated (layer self).

(** The Qt event loop, as far as this window drives it: repaint while a
    repaint is pending, for at most [fuel] repaints.  No key is pressed. *)
Inductive outcome : Type :=
| Exited (self : Window)
| Running (self : Window).

Fixpoint exec_ (fuel : nat) (self : Window) : outcome :=
  match fuel with
  | O => Running self
  | S fuel =>
      match paintGL self with
      | SystemExit self => Exited self
      | Updated self => exec_ fuel self
      end
  end.

Definition SCR_WIDTH : Z := 640.
(** [int(SCR_WIDTH * printer.height / printer.width)] *)
Definition SCR_HEIGHT : Z :=
  Z.quot (SCR_WIDTH * printer_height env) (printer_width env).

(** [main], from the creation of the window on, with the parsed mesh, the
    layer thickness and the directory of the slices as arguments. *)
Definition main (ourMesh : Mesh) (layerThickness : num)
    (sliceSavePath : string) (fuel : nat) : result outcome :=
  let window := __init__ layerThickness sliceSavePath in
  let window := resize SCR_WIDTH SCR_HEIGHT window in
  window <- initializeGL ourMesh window ;;
  Ok (exec_ fuel window).

End Program.

Arguments SystemExit {A} self.
Arguments Updated {A} self.
Arguments Exited {A} self.
Arguments Running {A} self.

(** ** Observations used in the statements *)

Section Observations.

Context {A : Arith}.
Variable env : Env.

(** The attributes that drive the layer loop. *)
Definition cursor (w : Window) : Z * num * num * num * Z :=
  (currentLayer w, height w, layerThickness w, totalThickness w, numOfVerts w).

(** The GL states in which the draw calls of a call sequence execute. *)
Fixpoint at_draws (cs : list call) (g : GLstate) : list GLstate :=
  match cs with
  | [] => []
  | c :: cs =>
      match c with
      | glDrawArrays _ _ => g :: at_draws cs (exec env c g)
      | _ => at_draws cs (exec env c g)
      end
  end.

(** What a draw call is configured with: the vertex array, the face that
    is culled (if any), the stencil function and the stencil operations. *)
Definition pass_config (g : GLstate)
  : option vao * option face * (func * Z * Z) * (op * op * op) :=
  (bound_vao g,
   if cull_face g then Some (cull_mode g) else None,
   stencil_func g,
   stencil_op g).

Definition passes (method : stmt) (self : Window) :=
  List.map pass_config (at_draws (calls method self) (gl self)).

(** Of a pass, the face that is culled and what a passing fragment does
    to the stencil value. *)
Definition face_and_op
    (c : option vao * option face * (func * Z * Z) * (op * op * op))
  : option face * op :=
  (snd (fst (fst c)), snd (snd c)).

(** The sequence both rendering methods issue for one cross-section, for
    a projection [p], a model transform [m] and [n] mesh vertices. *)
Definition stencil_sequence (p m : QMatrix4x4.t) (n : Z) : list call :=
  [ glEnable GL_STENCIL_TEST;
    glClearColor (of_int 0) (of_int 0) (of_int 0) (of_int 1);
    glClear (Z.lor GL_COLOR_BUFFER_BIT GL_STENCIL_BUFFER_BIT);
    VAO_bind vertVAO;
    shaderProg_bind;
    setUniformValue "proj" p;
    setUniformValue "model" m;
    glEnable GL_CULL_FACE;
    glCullFace GL_FRONT;
    glStencilFunc GL_ALWAYS 0 0xFF;
    glStencilOp GL_KEEP GL_KEEP GL_INCR;
    glDrawArrays 0 n;
    glCullFace GL_BACK;
    glStencilOp GL_KEEP GL_KEEP GL_DECR;
    glDrawArrays 0 n;
    glDisable GL_CULL_FACE;
    glClear GL_COLOR_BUFFER_BIT;
    VAO_bind maskVAO;
    glStencilFunc GL_NOTEQUAL 0 0xFF;
    glStencilOp GL_KEEP GL_KEEP GL_KEEP;
    glDrawArrays 0 6;
    glDisable GL_STENCIL_TEST ].

(** What a draw call is issued under and with: whether the stencil test
    is enabled, whether the shader program is bound, the configuration of
    the pass, and the first vertex and the number of vertices. *)
Fixpoint draw_calls (cs : list call) (g : GLstate)
  : list (bool * bool
          * (option vao * option face * (func * Z * Z) * (op * op * op))
          * (Z * Z)) :=
  match cs with
  | [] => []
  | c :: cs =>
      match c with
      | glDrawArrays first count =>
          (stencil_test g, program_bound g, pass_config g, (first, count))
            :: draw_calls cs (exec env c g)
      | _ => draw_calls cs (exec env c g)
      end
  end.

Definition drawn_passes (method : stmt) (self : Window) :=
  draw_calls (calls method self) (gl self).

(** [n] layers, one after the other. *)
Definition layers (n : nat) (w : Window) : Window := Nat.iter n (layer env) w.

(** The height after [n] additions of the layer thickness [t] to [h]. *)
Definition accumulated (t : num) (n : nat) (h : num) : num :=
  Nat.iter n (fun h => add h t) h.



(** The window a finished or interrupted run leaves. *)
Definition final (o : outcome) : Window :=
  match o with
  | Exited w => w
  | Running w => w
  end.

(** No addition of the layer thickness [t] rounds, over the first [n]
    steps from [h0]. *)
Definition no_rounding (t : num) (n : nat) (h0 : num) : Prop :=
  forall k, (k < n)%nat ->
    (toQ (add (accumulated t k h0) t) == toQ (accumulated t k h0) + toQ t)%Q.

(** The condition of [paintGL] under which the run ends. *)
Definition done (w : Window) : bool :=
  geb (height w) (sub (totalThickness w) EPSILON).




(** The exact image of a point under the affine map the first three rows
    of a matrix stand for. *)
Definition image (a : QMatrix4x4.t) (v : Q * Q * Q) : Q * Q * Q :=
  let '((m00, m01, m02, m03), (m10, m11, m12, m13),
        (m20, m21, m22, m23), _) := QMatrix4x4.m a in
  let '(x, y, z) := v in
  (toQ m00 * x + toQ m01 * y + toQ m02 * z + toQ m03,
   toQ m10 * x + toQ m11 * y + toQ m12 * z + toQ m13,
   toQ m20 * x + toQ m21 * y + toQ m22 * z + toQ m23)%Q.




(** An environment in which [QImage.save] answers as [sink] says. *)
Definition with_sink (sink : string -> bool) : Env :=
  {| printer_width := printer_width env;
     printer_height := printer_height env;
     printer_pixel := printer_pixel env;
     rasterize := rasterize env;
     fragment_color := fragment_color env;
     grayscale := grayscale env;
     save_ok := sink |}.

(** An outcome with the written files left out of the picture. *)
Definition forget_files (o : outcome) : outcome :=
  match o with
  | Exited w => Exited (with_files [] w)
  | Running w => Running (with_files [] w)
  end.

(** The exception a computation ends with, if any. *)
Definition raised {T : Type} (r : result T) : option exn :=
  match r with
  | Ok _ => None
  | Raise e => Some e
  end.

(** A layer as it would be without the save. *)
Definition rendered (w : Window) : Window :=
  gl_call env (fun _ => sliceFbo_release)
    (renderSlice_passes env
       (draw env
          (with_cursor (currentLayer w + 1) (add (height w) (layerThickness w)) w))).

End Observations.

(** ** Concrete runs *)

Module Demo.

(** A build plate of 4 x 3 pixels with pitch 1/2, and a stand-in for the
    GPU: the mesh covers pixels (1,1) and (2,1) with back faces and (2,1)
    with a front face; the mask quad covers the 4 x 3 pixels. *)
Definition toy_rasterize {A : Arith} (data : list (@vertex A)) (first count : Z)
    (p m : option QMatrix4x4.t) (vp : Z * Z * Z * Z) (culled : option face)
    : list (Z * Z) :=
  match culled with
  | Some GL_FRONT => [(1, 1); (2, 1)]
  | Some GL_BACK => [(2, 1)]
  | None => pixels 4 3
  end.

Definition env64 (sink : string -> bool) : @Env binary64 :=
  @Build_Env binary64 4 3 0.5%float toy_rasterize
    (1, 1, 1, 1)%float
    (fun c => if PrimFloat.eqb (fst (fst (fst c))) 1 then 255 else 0)
    sink.


Definition always : string -> bool := fun _ => true.

(** A tetrahedron with apex at height [h] over a triangle in the plane
    z = 0. *)
Definition tetrahedron {A : Arith} (h : num) : @Mesh A :=
  let o := of_int 0 in
  let i := of_int 1 in
  let a := (o, o, o) in let b := (i, o, o) in
  let c := (o, i, o) in let d := (o, o, h) in
  [(a, c, b); (a, b, d); (b, c, d); (c, a, d)].

(** A single triangle lying in the plane z = 0. *)
Definition flat {A : Arith} : @Mesh A :=
  let o := of_int 0 in
  let i := of_int 1 in
  [((o, o, o), (i, o, o), (o, i, o))].

(** The window as [main] has it when the event loop starts. *)
Definition started {A : Arith} (env : Env) (ourMesh : Mesh) (layerThickness : num)
  : result Window :=
  initializeGL env ourMesh
    (resize SCR_WIDTH (SCR_HEIGHT env) (__init__ layerThickness "slices")).

Definition window {A : Arith} (env : Env) (ourMesh : Mesh) (layerThickness : num)
  : Window :=
  match started env ourMesh layerThickness with
  | Ok w => w
  | Raise _ => __init__ layerThickness "slices"
  end.

End Demo.

(** ** The rest of the module *)

(** *** The directory of the slices, as [main] computes it *)

(** [p.rfind('/') + 1]: the length of [p] up to and including its last
    slash, 0 when there is none. *)
Fixpoint rfind_slash (p : string) : nat :=
  match p with
  | EmptyString => 0
  | String c s =>
      match rfind_slash s with
      | O => if Ascii.eqb c "/" then 1 else 0
      | S k => S (S k)
      end
  end.

Fixpoint all_slashes (s : string) : bool :=
  match s with
  | EmptyString => true
  | String c s => Ascii.eqb c "/" && all_slashes s
  end.

(** [s.rstrip('/')] *)
Fixpoint rstrip_slashes (s : string) : string :=
  match s with
  | EmptyString => EmptyString
  | String c s =>
      match rstrip_slashes s with
      | EmptyString => if Ascii.eqb c "/" then EmptyString else String c EmptyString
      | String d r => String c (String d r)
      end
  end.

(** [os.path.dirname] (POSIX): the head up to the last slash, without its
    trailing slashes unless it consists of slashes only. *)
Definition dirname (p : string) : string :=
  let head := substring 0 (rfind_slash p) p in
  if negb (String.eqb head EmptyString) && negb (all_slashes head)
  then rstrip_slashes head
  else head.

(** [sliceSavePath] of [main], from [sys.argv[1]]. *)
Definition main_sliceSavePath (sltFilename : string) : string :=
  path_join (dirname sltFilename) "slices".

(** The digits of a file name read back as a number. *)
Definition parse_04d (s : string) : option N :=
  option_map N.of_uint (NilZero.uint_of_string s).

Section Events.

Context {A : Arith}.
Variable env : Env.

(** [QtCore.Qt.Key_Escape] *)
Definition Key_Escape : Z := 0x01000000.

(** [Window.keyPressEvent]: Escape ends the program; every key event is
    accepted, and the window is left as it is. *)
Definition keyPressEvent (key : Z) (self : Window) : painted :=
  if key =? Key_Escape then SystemExit self else Updated self.

(** What the event loop delivers to the window. *)
Inductive event : Set :=
| Paint
| KeyPress (key : Z).

(** The event loop over a sequence of events; [exec_] is the case of
    repaints only. *)
Fixpoint app_exec (events : list event) (self : Window) : outcome :=
  match events with
  | [] => Running self
  | e :: events =>
      match match e with
            | Paint => paintGL env self
            | KeyPress key => keyPressEvent key self
            end with
      | SystemExit self => Exited self
      | Updated self => app_exec events self
      end
  end.

Definition ignored (e : event) : bool :=
  match e with
  | Paint => false
  | KeyPress key => negb (key =? Key_Escape)
  end.

End Events.

Section Raster.

Context {A : Arith}.
Variable env : Env.

Definition same_pixel (p q : Z * Z) : bool :=
  (fst p =? fst q) && (snd p =? snd q).

(** How many of the fragments [l] fall on pixel [p]. *)
Definition covers (p : Z * Z) (l : list (Z * Z)) : nat :=
  List.length (filter (same_pixel p) l).

Definition slice_viewport : Z * Z * Z * Z :=
  (0, 0, printer_width env, printer_height env).

(** The fragments of the mesh in [renderSlice], with one face culled, and
    those of the mask quad. *)
Definition mesh_fragments (culled : face) (w : Window) : list (Z * Z) :=
  rasterize env (vbo (gl w) vertVAO) 0 (numOfVerts w)
    (Some (proj w)) (Some (model w)) slice_viewport (Some culled).

Definition mask_fragments (w : Window) : list (Z * Z) :=
  rasterize env (vbo (gl w) maskVAO) 0 6
    (Some (proj w)) (Some (model w)) slice_viewport None.

(** Back-facing fragments counted up to 255, less the front-facing ones,
    but not below 0. *)
Definition stencil_count (w : Window) (p : Z * Z) : Z :=
  Z.max 0
    (Z.min 255 (Z.of_nat (covers p (mesh_fragments GL_FRONT w)))
     - Z.of_nat (covers p (mesh_fragments GL_BACK w))).

Definition opaque_black : colour := (of_int 0, of_int 0, of_int 0, of_int 1).

Definition slice_pixel (w : Window) (p : Z * Z) : colour :=
  if (0 <? covers p (mask_fragments w))%nat && (0 <? stencil_count w p)
  then fragment_color env
  else opaque_black.

(** An image of the printer's size with the two grey levels of a slice. *)
Definition two_level_image (image : list Z) : Prop :=
  List.length image
  = (Z.to_nat (printer_height env) * Z.to_nat (printer_width env))%nat
  /\ Forall (fun v => v = grayscale env (fragment_color env)
                      \/ v = grayscale env opaque_black) image.





(** The file of layer [k]. *)
Definition slice_path (w : Window) (k : Z) : string :=
  path_join (sliceSavePath w) ("out" ++ format_04d k ++ ".png").

(** A window without what belongs to the screen: its size, the window's
    framebuffer and the record of the calls. *)
Definition offscreen (w : Window) : Window :=
  let g := gl w in
  {| numOfVerts := numOfVerts w; bounds := bounds w;
     totalThickness := totalThickness w;
     currentLayer := currentLayer w; height := height w;
     layerThickness := layerThickness w; sliceSavePath := sliceSavePath w;
     proj := proj w; model := model w; size := (0, 0);
     gl := {| viewport := viewport g; stencil_test := stencil_test g;
              cull_face := cull_face g; cull_mode := cull_mode g;
              clear_color := clear_color g; stencil_func := stencil_func g;
              stencil_op := stencil_op g; bound_vao := bound_vao g;
              vbo := vbo g; program_bound := program_bound g;
              uniform := uniform g; fbo_bound := fbo_bound g;
              window_fb := slice_fb g; slice_fb := slice_fb g |};
     log := []; files := files w |}.

(** What the rendering of a slice reads from a window: not the
    framebuffers, the viewport, the size or the record of the calls. *)
Definition rendering_inputs (w : Window) : Window :=
  let g := gl w in
  let blank :=
    {| color_buffer := fun _ => opaque_black; stencil_buffer := fun _ => 0 |} in
  {| numOfVerts := numOfVerts w; bounds := bounds w;
     totalThickness := totalThickness w;
     currentLayer := currentLayer w; height := height w;
     layerThickness := layerThickness w; sliceSavePath := sliceSavePath w;
     proj := proj w; model := model w; size := (0, 0);
     gl := {| viewport := (0, 0, 0, 0); stencil_test := stencil_test g;
              cull_face := cull_face g; cull_mode := cull_mode g;
              clear_color := clear_color g; stencil_func := stencil_func g;
              stencil_op := stencil_op g; bound_vao := bound_vao g;
              vbo := vbo g; program_bound := program_bound g;
              uniform := uniform g; fbo_bound := fbo_bound g;
              window_fb := blank; slice_fb := blank |};
     log := []; files := files w |}.

End Raster.

(** * Properties *)

(** ** What each method leaves alone *)

Section Frames.

Context {A : Arith}.
Variable env : Env.

Lemma draw_cursor (w : Window) : cursor (draw env w) = cursor w.
Proof. reflexivity. Qed.



Lemma draw_files (w : Window) : files (draw env w) = files w.
Proof. reflexivity. Qed.

Lemma renderSlice_cursor (w : Window) : cursor (renderSlice env w) = cursor w.
Proof.
  unfold renderSlice, block, save; cbn [fold_left].
  destruct (save_ok env _); reflexivity.
Qed.

Lemma renderSlice_proj (w : Window) : proj (renderSlice env w) = proj w.
Proof.
  unfold renderSlice, block, save; cbn [fold_left].
  destruct (save_ok env _); reflexivity.
Qed.

Lemma renderSlice_model (w : Window) : model (renderSlice env w) = model w.
Proof.
  unfold renderSlice, block, save; cbn [fold_left].
  destruct (save_ok env _); reflexivity.
Qed.

Lemma layer_cursor (w : Window) :
  cursor (layer env w) =
  (currentLayer w + 1, add (height w) (layerThickness w),
   layerThickness w, totalThickness w, numOfVerts w).
Proof.
  unfold layer, block; cbn [fold_left].
  rewrite renderSlice_cursor. reflexivity.
Qed.



End Frames.

(** ** The stencil passes *)

Section Passes.

Context {A : Arith}.
Variable env : Env.

Lemma calls_draw (w : Window) :
  calls (draw env) w =
  glViewport 0 0 (fst (size w)) (snd (size w))
    :: stencil_sequence (proj w) (model (draw env w)) (numOfVerts w)
    ++ [shaderProg_release].
Proof. reflexivity. Qed.

Lemma calls_renderSlice (w : Window) :
  calls (renderSlice env) w =
  sliceFbo_bind
    :: glViewport 0 0 (printer_width env) (printer_height env)
    :: stencil_sequence (proj w) (model w) (numOfVerts w)
    ++ [sliceFbo_release].
Proof.
  unfold calls, renderSlice, block, save; cbn [fold_left].
  destruct (save_ok env _); reflexivity.
Qed.

Lemma passes_draw (w : Window) :
  passes env (draw env) w =
  [ (Some vertVAO, Some GL_FRONT, (GL_ALWAYS, 0, 255), (GL_KEEP, GL_KEEP, GL_INCR));
    (Some vertVAO, Some GL_BACK, (GL_ALWAYS, 0, 255), (GL_KEEP, GL_KEEP, GL_DECR));
    (Some maskVAO, None, (GL_NOTEQUAL, 0, 255), (GL_KEEP, GL_KEEP, GL_KEEP)) ].
Proof. unfold passes. rewrite calls_draw. reflexivity. Qed.

Lemma passes_renderSlice (w : Window) :
  passes env (renderSlice env) w =
  [ (Some vertVAO, Some GL_FRONT, (GL_ALWAYS, 0, 255), (GL_KEEP, GL_KEEP, GL_INCR));
    (Some vertVAO, Some GL_BACK, (GL_ALWAYS, 0, 255), (GL_KEEP, GL_KEEP, GL_DECR));
    (Some maskVAO, None, (GL_NOTEQUAL, 0, 255), (GL_KEEP, GL_KEEP, GL_KEEP)) ].
Proof. unfold passes. rewrite calls_renderSlice. reflexivity. Qed.

End Passes.



(** ** The stencil count and the picture of a slice *)

Section Stencil.

Context {A : Arith}.
Variable env : Env.

Lemma same_pixel_eq (p q : Z * Z) : same_pixel p q = true -> p = q.
Proof.
  destruct p as [a b], q as [c d]. unfold same_pixel. cbn [fst snd].
  intros H. apply andb_prop in H. destruct H as [H1 H2].
  apply Z.eqb_eq in H1, H2. congruence.
Qed.

Lemma covers_cons (p q : Z * Z) (l : list (Z * Z)) :
  covers p (q :: l) = if same_pixel p q then S (covers p l) else covers p l.
Proof. unfold covers. cbn [filter]. destruct (same_pixel p q); reflexivity. Qed.

(** A draw call whose stencil test always passes applies its third
    operation to a pixel once for every fragment on it. *)
Lemma fold_always (o1 o2 o : op) (r m : Z) (p : Z * Z) (l : list (Z * Z)) :
  forall fb,
    stencil_buffer
      (fold_left (fragment env true (GL_ALWAYS, r, m) (o1, o2, o)) l fb) p
    = Nat.iter (covers p l) (stencil_apply o) (stencil_buffer fb p).
Proof.
  induction l as [|q l IH]; intros fb; [reflexivity|].
  cbn [fold_left]. rewrite IH, covers_cons.
  change (stencil_buffer (fragment env true (GL_ALWAYS, r, m) (o1, o2, o) fb q) p)
    with (if same_pixel p q then stencil_apply o (stencil_buffer fb q)
          else stencil_buffer fb p).
  destruct (same_pixel p q) eqn:E; [|reflexivity].
  apply same_pixel_eq in E. subst q. rewrite Nat.iter_succ_r. reflexivity.
Qed.

Lemma iter_incr (n : nat) (s : Z) :
  0 <= s <= 255 ->
  Nat.iter n (stencil_apply GL_INCR) s = Z.min 255 (s + Z.of_nat n).
Proof.
  intros Hs. induction n as [|n IH]; [cbn; lia|].
  rewrite Nat.iter_succ, IH. unfold stencil_apply. lia.
Qed.

Lemma iter_decr (n : nat) (s : Z) :
  0 <= s ->
  Nat.iter n (stencil_apply GL_DECR) s = Z.max 0 (s - Z.of_nat n).
Proof.
  intros Hs. induction n as [|n IH]; [cbn; lia|].
  rewrite Nat.iter_succ, IH. unfold stencil_apply. lia.
Qed.

(** The mask pass: the stencil buffer stays, and a pixel takes the
    fragment colour when a fragment falls on it and its stencil value is
    not 0 under the mask 0xFF. *)
Lemma fold_mask (p : Z * Z) (l : list (Z * Z)) :
  forall fb,
    stencil_buffer
      (fold_left (fragment env true (GL_NOTEQUAL, 0, 255) (GL_KEEP, GL_KEEP, GL_KEEP))
         l fb) p
    = stencil_buffer fb p
    /\ color_buffer
         (fold_left (fragment env true (GL_NOTEQUAL, 0, 255) (GL_KEEP, GL_KEEP, GL_KEEP))
            l fb) p
       = if (0 <? covers p l)%nat
            && negb (Z.land 0 255 =? Z.land (stencil_buffer fb p) 255)
         then fragment_color env
         else color_buffer fb p.
Proof.
  induction l as [|q l IH]; intros fb.
  - split; reflexivity.
  - cbn [fold_left].
    destruct (IH (fragment env true (GL_NOTEQUAL, 0, 255)
                    (GL_KEEP, GL_KEEP, GL_KEEP) fb q)) as [IHs IHc].
    rewrite IHs, IHc, covers_cons. clear IHs IHc IH.
    assert (Hs : stencil_buffer
                   (fragment env true (GL_NOTEQUAL, 0, 255)
                      (GL_KEEP, GL_KEEP, GL_KEEP) fb q) p
                 = stencil_buffer fb p).
    { unfold fragment, stencil_passes, stencil_apply.
      destruct (negb _); cbn [stencil_buffer]; unfold update;
        fold (same_pixel p q);
        destruct (same_pixel p q) eqn:E; try reflexivity;
        apply same_pixel_eq in E; subst q; reflexivity. }
    rewrite Hs. split; [reflexivity|].
    unfold fragment, stencil_passes.
    destruct (same_pixel p q) eqn:E.
    + apply same_pixel_eq in E. subst q.
      change (0 <? S (covers p l))%nat with true. cbn [andb].
      destruct (negb (Z.land 0 255 =? Z.land (stencil_buffer fb p) 255)) eqn:T.
      * destruct (0 <? covers p l)%nat; [reflexivity|].
        cbn [andb color_buffer]. unfold update. fold (same_pixel p p).
        replace (same_pixel p p) with true; [reflexivity|].
        unfold same_pixel. rewrite !Z.eqb_refl. reflexivity.
      * rewrite andb_false_r. reflexivity.
    + destruct ((0 <? covers p l)%nat
                && negb (Z.land 0 255 =? Z.land (stencil_buffer fb p) 255));
        [reflexivity|].
      destruct (negb (Z.land 0 255 =? Z.land (stencil_buffer fb q) 255));
        cbn [color_buffer]; [|reflexivity].
      unfold update. fold (same_pixel p q). rewrite E. reflexivity.
Qed.

(** The framebuffer object after the rendering part of [renderSlice]:
    both buffers cleared, the increment pass, the decrement pass, the
    colour buffer cleared again, the mask pass. *)
Lemma slice_fb_renderSlice_passes (w : Window) :
  slice_fb (gl (renderSlice_passes env w))
  = fold_left (fragment env true (GL_NOTEQUAL, 0, 255) (GL_KEEP, GL_KEEP, GL_KEEP))
      (mask_fragments env w)
      {| color_buffer := fun _ => opaque_black;
         stencil_buffer :=
           stencil_buffer
             (fold_left (fragment env true (GL_ALWAYS, 0, 255) (GL_KEEP, GL_KEEP, GL_DECR))
                (mesh_fragments env GL_BACK w)
                (fold_left
                   (fragment env true (GL_ALWAYS, 0, 255) (GL_KEEP, GL_KEEP, GL_INCR))
                   (mesh_fragments env GL_FRONT w)
                   {| color_buffer := fun _ => opaque_black;
                      stencil_buffer := fun _ => 0 |})) |}.
Proof.
  destruct w as [nv bo tt cl he lt sp pr mo sz g lg fs].
  destruct g as [vp st cf cm cc sf so bv vb pb un fb wfb sfb].
  lazy; reflexivity.
Qed.

Lemma gl_gl_call (c : call) (y : Window) :
  gl (gl_call env (fun _ => c) y) = exec env c (gl y).
Proof. reflexivity. Qed.

Lemma slice_fb_release (g : GLstate) :
  slice_fb (exec env sliceFbo_release g) = slice_fb g.
Proof. reflexivity. Qed.

Lemma gl_save (image : list Z) (path : string) (x : Window) :
  gl (save env image path x) = gl x.
Proof. unfold save. destruct (save_ok env path); reflexivity. Qed.

Lemma renderSlice_slice_fb (w : Window) :
  slice_fb (gl (renderSlice env w)) = slice_fb (gl (renderSlice_passes env w)).
Proof.
  unfold renderSlice, block; cbn [fold_left].
  rewrite gl_gl_call, slice_fb_release, gl_save. reflexivity.
Qed.

Lemma stencil_count_range (w : Window) (p : Z * Z) :
  0 <= stencil_count env w p <= 255.
Proof. unfold stencil_count. lia. Qed.

Lemma stencil_renderSlice_passes (w : Window) (p : Z * Z) :
  stencil_buffer (slice_fb (gl (renderSlice_passes env w))) p
  = stencil_count env w p.
Proof.
  rewrite slice_fb_renderSlice_passes.
  rewrite (proj1 (fold_mask p _ _)). cbn [stencil_buffer].
  rewrite !fold_always. cbn [stencil_buffer].
  rewrite iter_incr by lia. rewrite iter_decr by lia.
  unfold stencil_count. rewrite Z.add_0_l. reflexivity.
Qed.

Lemma land_255 (s : Z) : 0 <= s <= 255 -> Z.land s 255 = s.
Proof.
  intros Hs. change 255 with (Z.ones 8).
  rewrite Z.land_ones by lia. apply Z.mod_small.
  change (2 ^ 8) with 256. lia.
Qed.

Lemma color_renderSlice_passes (w : Window) (p : Z * Z) :
  color_buffer (slice_fb (gl (renderSlice_passes env w))) p
  = slice_pixel env w p.
Proof.
  pose proof (stencil_renderSlice_passes w p) as Hs.
  rewrite slice_fb_renderSlice_passes in Hs |- *.
  rewrite (proj1 (fold_mask p _ _)) in Hs.
  rewrite (proj2 (fold_mask p _ _)). rewrite Hs.
  change (Z.land 0 255) with 0.
  rewrite (land_255 (stencil_count env w p)) by apply stencil_count_range.
  unfold slice_pixel. cbn [color_buffer].
  pose proof (stencil_count_range w p) as R.
  replace (negb (0 =? stencil_count env w p)) with (0 <? stencil_count env w p);
    [reflexivity|].
  destruct (Z.eqb_spec 0 (stencil_count env w p)) as [E|E]; cbn [negb].
  - rewrite <- E. reflexivity.
  - apply Z.ltb_lt. lia.
Qed.

(** X1.  After [renderSlice], the stencil value of every pixel of the
    framebuffer object is the number of fragments of the first mesh pass
    on it (front faces culled), counted up to 255, less the number of
    fragments of the second mesh pass (back faces culled), and at least 0;
    it always lies between 0 and 255. *)
Theorem stencil_after_renderSlice (w : Window) (p : Z * Z) :
  stencil_buffer (slice_fb (gl (renderSlice env w))) p
  = Z.max 0
      (Z.min 255 (Z.of_nat (covers p (mesh_fragments env GL_FRONT w)))
       - Z.of_nat (covers p (mesh_fragments env GL_BACK w)))
  /\ 0 <= stencil_buffer (slice_fb (gl (renderSlice env w))) p <= 255.
Proof.
  rewrite renderSlice_slice_fb, stencil_renderSlice_passes.
  split; [reflexivity | apply stencil_count_range].
Qed.

(** X2.  The picture [renderSlice] reads back: a pixel has the colour of
    the fragment shader when a fragment of the mask quad falls on it and
    its stencil count is positive, and is opaque black otherwise; the
    image that is saved is this picture, pixel by pixel, in grey. *)
Theorem slice_picture (w : Window) :
  (forall p,
      color_buffer (slice_fb (gl (renderSlice env w))) p
      = if (0 <? covers p (mask_fragments env w))%nat
           && (0 <? stencil_count env w p)
        then fragment_color env
        else (of_int 0, of_int 0, of_int 0, of_int 1))
  /\ sliceRaster env w
     = List.map (fun p => grayscale env (slice_pixel env w p))
         (pixels (printer_width env) (printer_height env)).
Proof.
  split.
  - intros p. rewrite renderSlice_slice_fb. apply color_renderSlice_passes.
  - unfold sliceRaster, toImage. apply map_ext. intros p.
    rewrite color_renderSlice_passes. reflexivity.
Qed.

(** X21.  The stencil count saturates: a pixel on which the first mesh
    pass and the second mesh pass both put 255 fragments or more comes out
    opaque black, however many more fragments the first pass put there. *)
Theorem stencil_saturates (w : Window) (p : Z * Z) :
  (255 <= covers p (mesh_fragments env GL_FRONT w))%nat ->
  (255 <= covers p (mesh_fragments env GL_BACK w))%nat ->
  stencil_buffer (slice_fb (gl (renderSlice env w))) p = 0
  /\ color_buffer (slice_fb (gl (renderSlice env w))) p
     = (of_int 0, of_int 0, of_int 0, of_int 1).
Proof.
  intros Hb Hf.
  rewrite renderSlice_slice_fb, stencil_renderSlice_passes,
    color_renderSlice_passes.
  assert (E : stencil_count env w p = 0) by (unfold stencil_count; lia).
  split; [exact E|].
  unfold slice_pixel. rewrite E, andb_false_r. reflexivity.
Qed.

End Stencil.

Lemma stencil_saturates_witness :
  let env :=
    @Build_Env binary64 4 3 0.5%float
      (fun _ _ _ _ _ _ culled =>
         match culled with
         | Some GL_FRONT => repeat (1, 1) 300
         | Some GL_BACK => repeat (1, 1) 256
         | None => pixels 4 3
         end)
      (1, 1, 1, 1)%float (fun _ => 255) Demo.always in
  let w := @__init__ binary64 0.25%float "slices" in
  stencil_buffer (slice_fb (gl (renderSlice env w))) (1, 1) = 0
  /\ color_buffer (slice_fb (gl (renderSlice env w))) (1, 1)
     = (of_int 0, of_int 0, of_int 0, of_int 1).
Proof.
  intros env w. apply (stencil_saturates env w (1, 1)).
  - vm_compute. lia.
  - vm_compute. lia.
Defined.

(** ** C1, C10: the passes, on screen and off screen *)

Section Claims_passes.

Context {A : Arith}.
Variable env : Env.

Local Opaque QMatrix4x4.translate.



Lemma layer_unfold (w : Window) :
  layer env w
  = renderSlice env (draw env
      (with_cursor (currentLayer w + 1) (add (height w) (layerThickness w)) w)).
Proof. unfold layer, block; cbn [fold_left]. reflexivity. Qed.

Lemma drawn_passes_draw (w : Window) :
  drawn_passes env (draw env) w
  = [ (true, true,
       (Some vertVAO, Some GL_FRONT, (GL_ALWAYS, 0, 255),
        (GL_KEEP, GL_KEEP, GL_INCR)), (0, numOfVerts w));
      (true, true,
       (Some vertVAO, Some GL_BACK, (GL_ALWAYS, 0, 255),
        (GL_KEEP, GL_KEEP, GL_DECR)), (0, numOfVerts w));
      (true, true,
       (Some maskVAO, None, (GL_NOTEQUAL, 0, 255),
        (GL_KEEP, GL_KEEP, GL_KEEP)), (0, 6)) ].
Proof. unfold drawn_passes. rewrite calls_draw. reflexivity. Qed.

Lemma drawn_passes_renderSlice (w : Window) :
  drawn_passes env (renderSlice env) w
  = [ (true, true,
       (Some vertVAO, Some GL_FRONT, (GL_ALWAYS, 0, 255),
        (GL_KEEP, GL_KEEP, GL_INCR)), (0, numOfVerts w));
      (true, true,
       (Some vertVAO, Some GL_BACK, (GL_ALWAYS, 0, 255),
        (GL_KEEP, GL_KEEP, GL_DECR)), (0, numOfVerts w));
      (true, true,
       (Some maskVAO, None, (GL_NOTEQUAL, 0, 255),
        (GL_KEEP, GL_KEEP, GL_KEEP)), (0, 6)) ].
Proof. unfold drawn_passes. rewrite calls_renderSlice. reflexivity. Qed.







(** C1 (as amended).  Every layer is rendered twice, by [draw] and by
    [renderSlice], and both issue the same three draw calls, each with
    the stencil test enabled and the shader program bound: first all the
    vertices of the mesh with FRONT faces culled, the function GL_ALWAYS
    and GL_INCR on pass (so it is the back faces that increment), then
    all the vertices of the mesh with BACK faces culled, GL_ALWAYS and
    GL_DECR on pass (the front faces decrement), then the six vertices of
    the mask quad without culling, with the function GL_NOTEQUAL against
    0 under the mask 0xFF and without stencil writes.  In the framebuffer
    object the stencil value of a pixel is then the number of fragments
    of the first pass on it, counted up to 255, less those of the second,
    and at least 0, and the pixel takes the colour of the fragment shader
    where a fragment of the mask quad falls on it and that value is
    positive, and is opaque black elsewhere. *)
Theorem passes_cull_front_then_back (w : Window) :
  let three :=
    [ (true, true,
       (Some vertVAO, Some GL_FRONT, (GL_ALWAYS, 0, 255),
        (GL_KEEP, GL_KEEP, GL_INCR)), (0, numOfVerts w));
      (true, true,
       (Some vertVAO, Some GL_BACK, (GL_ALWAYS, 0, 255),
        (GL_KEEP, GL_KEEP, GL_DECR)), (0, numOfVerts w));
      (true, true,
       (Some maskVAO, None, (GL_NOTEQUAL, 0, 255),
        (GL_KEEP, GL_KEEP, GL_KEEP)), (0, 6)) ] in
  drawn_passes env (draw env) w = three
  /\ drawn_passes env (renderSlice env) w = three
  /\ layer env w
    = renderSlice env (draw env
        (with_cursor (currentLayer w + 1) (add (height w) (layerThickness w)) w))
  /\ (forall p,
        stencil_buffer (slice_fb (gl (renderSlice env w))) p
        = Z.max 0
            (Z.min 255 (Z.of_nat (covers p (mesh_fragments env GL_FRONT w)))
             - Z.of_nat (covers p (mesh_fragments env GL_BACK w))))
  /\ (forall p,
        color_buffer (slice_fb (gl (renderSlice env w))) p
        = if (0 <? covers p (mask_fragments env w))%nat
             && (0 <? stencil_buffer (slice_fb (gl (renderSlice env w))) p)
          then fragment_color env
          else (of_int 0, of_int 0, of_int 0, of_int 1)).
Proof.
  cbv zeta.
  split; [apply drawn_passes_draw|].
  split; [apply drawn_passes_renderSlice|].
  split; [apply layer_unfold|].
  split; intros p.
  - rewrite renderSlice_slice_fb, stencil_renderSlice_passes. reflexivity.
  - rewrite renderSlice_slice_fb, stencil_renderSlice_passes,
      color_renderSlice_passes. reflexivity.
Qed.


End Claims_passes.

(** The counterexample to C1 as stated: in the program's own first layer
    the first mesh pass culls FRONT faces (and increments), the second
    culls BACK faces (and decrements), the other way round from Pass A and
    Pass B of the specification. *)
Lemma first_pass_culls_front_faces :
  let env := Demo.env64 Demo.always in
  let w := Demo.window env (Demo.tetrahedron (A:=binary64) 1%float) 0.5%float in
  List.map face_and_op (passes env (renderSlice env) w)
    <> [(Some GL_BACK, GL_INCR); (Some GL_FRONT, GL_DECR); (None, GL_KEEP)]
  /\ nth_error (List.map face_and_op (passes env (renderSlice env) w)) 0
     = Some (Some GL_FRONT, GL_INCR)
  /\ nth_error (List.map face_and_op (passes env (draw env) w)) 0
     = Some (Some GL_FRONT, GL_INCR).
Proof.
  intros env w.
  rewrite (passes_renderSlice env w), (passes_draw env w).
  split; [intros H; discriminate H|]. split; reflexivity.
Qed.


(** ** C9: rendering a slice twice *)

Section Claim_idempotence.

Context {A : Arith}.
Variable env : Env.

(** The raster depends on the window only through the two matrices, the
    vertex count and the vertex buffers. *)
Lemma sliceRaster_depends_on (w w' : Window) :
  proj w = proj w' -> model w = model w' -> numOfVerts w = numOfVerts w' ->
  vbo (gl w) = vbo (gl w') ->
  sliceRaster env w = sliceRaster env w'.
Proof.
  destruct w as [nv bo tt cl he lt sp pr mo sz g lg fs].
  destruct w' as [nv' bo' tt' cl' he' lt' sp' pr' mo' sz' g' lg' fs'].
  destruct g as [vp st cf cm cc sf so bv vb pb un fb wfb sfb].
  destruct g' as [vp' st' cf' cm' cc' sf' so' bv' vb' pb' un' fb' wfb' sfb'].
  cbn [proj model numOfVerts vbo gl]. intros -> -> -> ->.
  lazy; reflexivity.
Qed.

Lemma renderSlice_vbo (w : Window) : vbo (gl (renderSlice env w)) = vbo (gl w).
Proof.
  unfold renderSlice, block, save; cbn [fold_left].
  destruct (save_ok env _); lazy; reflexivity.
Qed.

(** C9.  The raster a second call of [renderSlice] reads back, on the
    state the first call leaves (no translation in between), is the raster
    the first call read back. *)
Theorem renderSlice_twice_same_raster (w : Window) :
  sliceRaster env (renderSlice env w) = sliceRaster env w.
Proof.
  apply sliceRaster_depends_on.
  - apply renderSlice_proj.
  - apply renderSlice_model.
  - pose proof (renderSlice_cursor env w) as H.
    unfold cursor in H. congruence.
  - apply renderSlice_vbo.
Qed.

End Claim_idempotence.

(** ** The layer loop *)

Section Loop.

Context {A : Arith}.
Variable env : Env.

Lemma layers_S (n : nat) (w : Window) :
  layers env (S n) w = layer env (layers env n w).
Proof. reflexivity. Qed.

Lemma layers_shift (n : nat) (w : Window) :
  layers env n (layer env w) = layer env (layers env n w).
Proof.
  induction n as [|n IH]; [reflexivity|].
  rewrite !layers_S, IH. reflexivity.
Qed.

Lemma accumulated_S (t : num) (n : nat) (h : num) :
  accumulated t (S n) h = add (accumulated t n h) t.
Proof. reflexivity. Qed.

Lemma layers_cursor (n : nat) (w : Window) :
  cursor (layers env n w) =
  (currentLayer w + Z.of_nat n,
   accumulated (layerThickness w) n (height w),
   layerThickness w, totalThickness w, numOfVerts w).
Proof.
  induction n as [|n IH].
  - unfold cursor; cbn. rewrite Z.add_0_r. reflexivity.
  - rewrite layers_S, layer_cursor.
    unfold cursor in IH. injection IH as H1 H2 H3 H4 H5.
    rewrite H1, H2, H3, H4, H5, accumulated_S.
    replace (Z.of_nat (S n)) with (Z.of_nat n + 1) by lia.
    rewrite Z.add_assoc. reflexivity.
Qed.



Lemma paintGL_done (w : Window) :
  done w = true -> paintGL env w = SystemExit w.
Proof. unfold done, paintGL. intros ->. reflexivity. Qed.

Lemma paintGL_not_done (w : Window) :
  done w = false -> paintGL env w = Updated (layer env w).
Proof. unfold done, paintGL. intros ->. reflexivity. Qed.

(** Once the condition of [paintGL] holds, any further repaint ends the
    run where it stands. *)
Lemma exec_done (fuel : nat) (w : Window) :
  done w = true -> exec_ env (S fuel) w = Exited w.
Proof. intros H. cbn. rewrite (paintGL_done w H). reflexivity. Qed.


(** While the condition does not hold, the run is still going. *)
Lemma exec_running (n : nat) :
  forall w : Window,
    (forall k, (k < n)%nat -> done (layers env k w) = false) ->
    exec_ env n w = Running (layers env n w).
Proof.
  induction n as [|n IH]; intros w Hlt; [reflexivity|].
  cbn [exec_]. rewrite (paintGL_not_done w (Hlt 0%nat ltac:(lia))).
  rewrite layers_S, <- layers_shift.
  apply IH. intros k Hk. rewrite layers_shift, <- layers_S. apply Hlt. lia.
Qed.

Lemma loadMesh_cursor (ourMesh : Mesh) (w w' : Window) :
  loadMesh env ourMesh w = Ok w' ->
  currentLayer w' = currentLayer w /\ height w' = height w
  /\ layerThickness w' = layerThickness w.
Proof.
  unfold loadMesh, bind.
  destruct (np_min (axis X ourMesh)); [|discriminate].
  destruct (np_max (axis X ourMesh)); [|discriminate].
  destruct (np_min (axis Y ourMesh)); [|discriminate].
  destruct (np_max (axis Y ourMesh)); [|discriminate].
  destruct (np_min (axis Z_ ourMesh)); [|discriminate].
  destruct (np_max (axis Z_ ourMesh)); [|discriminate].
  intros H. injection H as <-. repeat split.
Qed.

Lemma initializeGL_cursor (ourMesh : Mesh) (w w' : Window) :
  initializeGL env ourMesh w = Ok w' ->
  currentLayer w' = currentLayer w /\ height w' = height w
  /\ layerThickness w' = layerThickness w.
Proof.
  unfold initializeGL, bind.
  destruct (loadMesh env ourMesh w) as [w1|] eqn:E; [|discriminate].
  intros H. injection H as <-. cbn.
  exact (loadMesh_cursor ourMesh w w1 E).
Qed.

Lemma accumulated_exact_sum (t : num) (n : nat) (h0 : num) :
  no_rounding t n h0 ->
  (toQ (accumulated t n h0) == toQ h0 + inject_Z (Z.of_nat n) * toQ t)%Q.
Proof.
  induction n as [|n IH]; intros H.
  - cbn. ring.
  - rewrite accumulated_S, (H n ltac:(lia)), IH.
    + rewrite Nat2Z.inj_succ. unfold Z.succ. rewrite inject_Z_plus. ring.
    + intros k Hk. apply H. lia.
Qed.

(** C3 (as amended).  [__init__] sets [height] and [currentLayer] to 0
    and [initializeGL] keeps them; a layer replaces [height] by the sum
    [height + layerThickness] as the arithmetic computes it and adds 1 to
    [currentLayer]; so after [n] layers [currentLayer] has grown by [n] and
    [height] is the [n]-fold accumulated sum, whose value is
    [n * layerThickness] above the start whenever none of these additions
    rounds; [draw] and [renderSlice] change neither. *)
Theorem cursor_after_layers (w : Window) (n : nat) :
  (forall t path, currentLayer (__init__ t path) = 0
                  /\ height (__init__ t path) = of_int 0)
  /\ (forall ourMesh w0 w1, initializeGL env ourMesh w0 = Ok w1 ->
        currentLayer w1 = currentLayer w0 /\ height w1 = height w0)
  /\ currentLayer (layer env w) = currentLayer w + 1
  /\ height (layer env w) = add (height w) (layerThickness w)
  /\ currentLayer (layers env n w) = currentLayer w + Z.of_nat n
  /\ height (layers env n w) = accumulated (layerThickness w) n (height w)
  /\ (no_rounding (layerThickness w) n (height w) ->
      (toQ (height (layers env n w))
       == toQ (height w) + inject_Z (Z.of_nat n) * toQ (layerThickness w))%Q)
  /\ (forall s, currentLayer (draw env s) = currentLayer s
                /\ height (draw env s) = height s)
  /\ (forall s, currentLayer (renderSlice env s) = currentLayer s
                /\ height (renderSlice env s) = height s).
Proof.
  pose proof (layers_cursor n w) as Hn. unfold cursor in Hn.
  injection Hn as H1 H2 _ _ _.
  pose proof (layer_cursor env w) as Hl. unfold cursor in Hl.
  injection Hl as L1 L2 _ _ _.
  split; [intros; split; reflexivity|].
  split.
  { intros ourMesh w0 w1 H.
    destruct (initializeGL_cursor ourMesh w0 w1 H) as (? & ? & _). split; assumption. }
  split; [exact L1|]. split; [exact L2|].
  split; [exact H1|]. split; [exact H2|].
  split; [intros H; rewrite H2; apply accumulated_exact_sum; exact H|].
  split; intros s.
  - split; reflexivity.
  - pose proof (renderSlice_cursor env s) as H. unfold cursor in H.
    injection H as R1 R2 _ _ _. split; assumption.
Qed.

End Loop.

(** In binary64 the ten-fold sum of 0.1 is not ten times 0.1: the
    counterexample to C3 as stated.  The run is the program's own, on a
    tetrahedron of height 2 with layer thickness 0.1, stopped after ten
    layers. *)
Lemma height_drifts_in_binary64 :
  match main (Demo.env64 Demo.always)
          (Demo.tetrahedron (A:=binary64) 2%float) 0.1%float "slices" 10 with
  | Ok o =>
      currentLayer (final o) = 10
      /\ height (final o)
         <> mul (of_int (currentLayer (final o))) (layerThickness (final o))
  | Raise _ => False
  end.
Proof.
  vm_compute. split; [reflexivity|]. intros H. discriminate H.
Qed.

Lemma cursor_after_layers_witness :
  let env := Demo.env64 Demo.always in
  let w := Demo.window env (Demo.tetrahedron (A:=binary64) 1%float) 0.25%float in
  (toQ (height (layers env 4 w))
   == toQ (height w) + inject_Z (Z.of_nat 4) * toQ (layerThickness w))%Q.
Proof.
  intros env w.
  apply (cursor_after_layers env w 4).
  intros k Hk.
  destruct k as [|[|[|[|k]]]]; [vm_compute; reflexivity ..| lia].
Defined.

(** ** C4: the model transform *)

Lemma started_window {A : Arith} (env : Env) (ourMesh : Mesh) (t : num) :
  raised (Demo.started env ourMesh t) = None ->
  Demo.started env ourMesh t = Ok (Demo.window env ourMesh t).
Proof.
  unfold Demo.window.
  destruct (Demo.started env ourMesh t); [reflexivity | discriminate].
Qed.

Section Transform.

Context {A : Arith}.
Variable env : Env.







End Transform.


(** ** C2, C6: how many layers *)


Section Count.

Local Open Scope Q_scope.

Context {A : Arith}.
Variable env : Env.





Lemma initializeGL_files (ourMesh : Mesh) (w w' : Window) :
  initializeGL env ourMesh w = Ok w' -> files w' = files w.
Proof.
  unfold initializeGL, loadMesh, bind.
  destruct (np_min (axis X ourMesh)); [|discriminate].
  destruct (np_max (axis X ourMesh)); [|discriminate].
  destruct (np_min (axis Y ourMesh)); [|discriminate].
  destruct (np_max (axis Y ourMesh)); [|discriminate].
  destruct (np_min (axis Z_ ourMesh)); [|discriminate].
  destruct (np_max (axis Z_ ourMesh)); [|discriminate].
  intros H. injection H as <-. reflexivity.
Qed.

(** C6 (as amended).  With [totalThickness <= 0] no exception is raised:
    when the threshold [totalThickness - EPSILON], as the arithmetic
    computes it, is not above [totalThickness] and the test of [paintGL]
    compares the exact values, the first [paintGL] finds
    [height >= totalThickness - EPSILON] and calls [sys.exit()], so
    [main] ends the way a completed run ends, on the window
    [initializeGL] made, with no layer produced and no file written. *)
Theorem nonpositive_thickness_exits (ourMesh : Mesh) (t : num)
    (path : string) (w : Window) (fuel : nat) :
  initializeGL env ourMesh (resize SCR_WIDTH (SCR_HEIGHT env) (__init__ t path))
    = Ok w ->
  toQ (totalThickness w) <= 0 ->
  toQ (sub (totalThickness w) EPSILON) <= toQ (totalThickness w) ->
  toQ (of_int 0) == 0 ->
  geb (of_int 0) (sub (totalThickness w) EPSILON)
    = Qle_bool (toQ (sub (totalThickness w) EPSILON)) (toQ (of_int 0)) ->
  main env ourMesh t path (S fuel) = Ok (Exited w)
  /\ currentLayer w = 0%Z
  /\ files w = [].
Proof.
  intros Hw HT Hth H0 Hgeb.
  destruct (initializeGL_cursor env _ _ _ Hw) as (Hc & Hh & _).
  pose proof (initializeGL_files _ _ _ Hw) as Hf.
  cbn in Hc, Hh, Hf.
  split; [|split; assumption].
  unfold main, bind. rewrite Hw. f_equal.
  apply exec_done. unfold done. rewrite Hh, Hgeb.
  apply Qle_bool_iff. rewrite H0.
  apply Qle_trans with (1 := Hth). exact HT.
Qed.

End Count.



Lemma nonpositive_thickness_exits_witness :
  let env := Demo.env64 Demo.always in
  main env (Demo.flat (A:=binary64)) 0.1%float "slices" 1
    = Ok (Exited (Demo.window env (Demo.flat (A:=binary64)) 0.1%float))
  /\ currentLayer (Demo.window env (Demo.flat (A:=binary64)) 0.1%float) = 0
  /\ files (Demo.window env (Demo.flat (A:=binary64)) 0.1%float) = [].
Proof.
  intros env.
  apply (nonpositive_thickness_exits env (Demo.flat (A:=binary64)) 0.1%float "slices").
  - apply (started_window env (Demo.flat (A:=binary64)) 0.1%float).
    vm_compute. reflexivity.
  - vm_compute. intros H. discriminate H.
  - vm_compute. intros H. discriminate H.
  - vm_compute. reflexivity.
  - vm_compute. reflexivity.
Defined.

(** The counterexample to C6 as stated, in binary64: a mesh lying in the
    plane z = 0 has thickness 0, and [main] ends by [sys.exit()] with no
    layer; nothing is raised. *)
Lemma flat_mesh_exits_normally :
  match main (Demo.env64 Demo.always) (Demo.flat (A:=binary64)) 0.1%float
          "slices" 5 with
  | Ok (Exited w) =>
      totalThickness w = 0%float /\ currentLayer w = 0 /\ files w = []
  | _ => False
  end
  /\ raised (main (Demo.env64 Demo.always) (Demo.flat (A:=binary64)) 0.1%float
               "slices" 5)
     <> Some DegenerateVolumeError.
Proof.
  split.
  - vm_compute. repeat split.
  - vm_compute. intros H. discriminate H.
Qed.
(** ** C5: an empty mesh *)

Section Empty_mesh.

Context {A : Arith}.
Variable env : Env.

Lemma loadMesh_empty (w : Window) : loadMesh env [] w = Raise ValueError.
Proof. reflexivity. Qed.

Lemma loadMesh_nonempty (tr : triangle) (ourMesh : Mesh) (w : Window) :
  exists w', loadMesh env (tr :: ourMesh) w = Ok w'.
Proof.
  destruct tr as [[a b] c]. unfold loadMesh, bind. cbn [axis flat_map app np_min np_max].
  eexists. reflexivity.
Qed.

Lemma loadMesh_numOfVerts (ourMesh : Mesh) (w w' : Window) :
  loadMesh env ourMesh w = Ok w' ->
  numOfVerts w' = Z.of_nat (List.length ourMesh) * 3.
Proof.
  unfold loadMesh, bind.
  destruct (np_min (axis X ourMesh)); [|discriminate].
  destruct (np_max (axis X ourMesh)); [|discriminate].
  destruct (np_min (axis Y ourMesh)); [|discriminate].
  destruct (np_max (axis Y ourMesh)); [|discriminate].
  destruct (np_min (axis Z_ ourMesh)); [|discriminate].
  destruct (np_max (axis Z_ ourMesh)); [|discriminate].
  intros H. injection H as <-. reflexivity.
Qed.

(** C5 (as amended).  With a mesh of zero triangles [loadMesh] fails, on
    numpy's minimum of an empty array, with ValueError (there is no
    InvalidMeshError in the program); this happens inside [initializeGL],
    so [main] raises before any repaint, whatever the fuel.  A mesh with at
    least one triangle loads, and its vertex count is three times its
    triangle count, hence always a multiple of three. *)
Theorem empty_mesh_raises_ValueError (t : num) (path : string) (fuel : nat) :
  main env [] t path fuel = Raise ValueError
  /\ (forall w, initializeGL env [] w = Raise ValueError)
  /\ (forall tr ourMesh w, exists w', initializeGL env (tr :: ourMesh) w = Ok w')
  /\ (forall ourMesh w w', initializeGL env ourMesh w = Ok w' ->
        numOfVerts w' = Z.of_nat (List.length ourMesh) * 3
        /\ numOfVerts w' mod 3 = 0).
Proof.
  split; [reflexivity|]. split; [reflexivity|]. split.
  - intros tr ourMesh w. unfold initializeGL, bind.
    destruct (loadMesh_nonempty tr ourMesh w) as (w' & ->).
    eexists. reflexivity.
  - intros ourMesh w w'. unfold initializeGL, bind.
    destruct (loadMesh env ourMesh w) as [w1|] eqn:E; [|discriminate].
    intros H. injection H as <-. cbn [numOfVerts with_matrices].
    rewrite (loadMesh_numOfVerts _ _ _ E). split; [reflexivity|].
    apply Z_mod_mult.
Qed.

End Empty_mesh.

(** The counterexample to C5 as stated: the exception is ValueError, not
    InvalidMeshError. *)
Lemma empty_mesh_not_InvalidMeshError :
  raised (main (Demo.env64 Demo.always) [] 0.1%float "slices" 5)
    = Some ValueError
  /\ raised (main (Demo.env64 Demo.always) [] 0.1%float "slices" 5)
    <> Some InvalidMeshError.
Proof.
  split; [reflexivity|]. intros H. discriminate H.
Qed.

(** ** C7: a failing save *)

Section Save.

Context {A : Arith}.
Variable env : Env.

Local Opaque QMatrix4x4.translate.

Lemma exec_with_sink (sink : string -> bool) (c : call) (g : GLstate) :
  exec (with_sink env sink) c g = exec env c g.
Proof. destruct c; reflexivity. Qed.

Lemma gl_call_with_sink (sink : string -> bool) (c : Window -> call) (w : Window) :
  gl_call (with_sink env sink) c w = gl_call env c w.
Proof. unfold gl_call. rewrite exec_with_sink. reflexivity. Qed.

Lemma draw_with_sink (sink : string -> bool) (w : Window) :
  draw (with_sink env sink) w = draw env w.
Proof.
  unfold draw, block; cbn [fold_left].
  rewrite !gl_call_with_sink. reflexivity.
Qed.

Lemma renderSlice_passes_with_sink (sink : string -> bool) (w : Window) :
  renderSlice_passes (with_sink env sink) w = renderSlice_passes env w.
Proof.
  unfold renderSlice_passes, block; cbn [fold_left].
  rewrite !gl_call_with_sink. reflexivity.
Qed.

Lemma draw_with_files (fs : list (string * list Z)) (w : Window) :
  draw env (with_files fs w) = with_files fs (draw env w).
Proof.
  destruct w as [nv bo tt cl he lt sp pr mo sz g lg fs0].
  lazy; reflexivity.
Qed.

Lemma renderSlice_passes_with_files (fs : list (string * list Z)) (w : Window) :
  renderSlice_passes env (with_files fs w)
  = with_files fs (renderSlice_passes env w).
Proof.
  destruct w as [nv bo tt cl he lt sp pr mo sz g lg fs0].
  lazy; reflexivity.
Qed.

Lemma with_files_files (w : Window) : with_files (files w) w = w.
Proof. destruct w; reflexivity. Qed.

Lemma save_with_files (e : Env) (image : list Z) (path : string) (x : Window) :
  exists fs, save e image path x = with_files fs x.
Proof.
  unfold save. destruct (save_ok e path).
  - eexists. reflexivity.
  - exists (files x). symmetry. apply with_files_files.
Qed.

Lemma gl_call_with_files (c : call) (fs : list (string * list Z)) (x : Window) :
  gl_call env (fun _ => c) (with_files fs x)
  = with_files fs (gl_call env (fun _ => c) x).
Proof. reflexivity. Qed.

Lemma with_files_with_files (fs fs' : list (string * list Z)) (x : Window) :
  with_files fs (with_files fs' x) = with_files fs x.
Proof. reflexivity. Qed.

Lemma renderSlice_forget (sink : string -> bool) (w : Window) :
  with_files [] (renderSlice (with_sink env sink) w)
  = with_files []
      (gl_call env (fun _ => sliceFbo_release) (renderSlice_passes env w)).
Proof.
  unfold renderSlice, block; cbn [fold_left].
  rewrite (renderSlice_passes_with_sink sink w).
  set (x := renderSlice_passes env w).
  destruct (save_with_files (with_sink env sink)
              (toImage (with_sink env sink) x)
              (path_join (sliceSavePath x)
                 ("out" ++ format_04d (currentLayer x) ++ ".png")) x)
    as (fs & ->).
  rewrite (gl_call_with_sink sink (fun _ => sliceFbo_release) (with_files fs x)).
  rewrite (gl_call_with_files sliceFbo_release fs x).
  apply with_files_with_files.
Qed.

Lemma layer_forget_files (sink : string -> bool)
    (fs : list (string * list Z)) (w : Window) :
  with_files [] (layer (with_sink env sink) (with_files fs w))
  = with_files [] (rendered env w).
Proof.
  rewrite (layer_unfold (with_sink env sink) (with_files fs w)).
  rewrite renderSlice_forget.
  rewrite draw_with_sink.
  change (with_cursor ?l ?h (with_files fs w))
    with (with_files fs (with_cursor l h w)).
  rewrite draw_with_files, renderSlice_passes_with_files.
  rewrite gl_call_with_files. apply with_files_with_files.
Qed.

Lemma layer_forget (sink1 sink2 : string -> bool) (w w' : Window) :
  with_files [] w = with_files [] w' ->
  with_files [] (layer (with_sink env sink1) w)
  = with_files [] (layer (with_sink env sink2) w').
Proof.
  intros H.
  rewrite <- (with_files_files w), <- (with_files_files w').
  change (with_files (files w) w) with (with_files (files w) (with_files [] w)).
  change (with_files (files w') w') with (with_files (files w') (with_files [] w')).
  rewrite !layer_forget_files, H. reflexivity.
Qed.

Lemma done_forget (w w' : Window) :
  with_files [] w = with_files [] w' -> done w = done w'.
Proof.
  intros H. unfold done.
  change (height w) with (height (with_files [] w)).
  change (totalThickness w) with (totalThickness (with_files [] w)).
  rewrite H. reflexivity.
Qed.

Lemma exec_forget (sink1 sink2 : string -> bool) (fuel : nat) :
  forall w w' : Window,
    with_files [] w = with_files [] w' ->
    forget_files (exec_ (with_sink env sink1) fuel w)
    = forget_files (exec_ (with_sink env sink2) fuel w').
Proof.
  induction fuel as [|fuel IH]; intros w w' H.
  - cbn. rewrite H. reflexivity.
  - cbn [exec_]. unfold paintGL. fold (done w). fold (done w').
    rewrite <- (done_forget w w' H).
    destruct (done w).
    + cbn. rewrite H. reflexivity.
    + apply IH, layer_forget, H.
Qed.

Lemma renderSlice_files (w : Window) :
  exists new, files (renderSlice env w) = new ++ files w.
Proof.
  unfold renderSlice, block, save; cbn [fold_left].
  destruct (save_ok env _).
  - eexists [_]. reflexivity.
  - exists []. reflexivity.
Qed.

Lemma layer_files (w : Window) :
  exists new, files (layer env w) = new ++ files w.
Proof.
  rewrite (layer_unfold env w).
  destruct (renderSlice_files (draw env
    (with_cursor (currentLayer w + 1) (add (height w) (layerThickness w)) w)))
    as (new & ->).
  exists new. reflexivity.
Qed.

Lemma exec_files (fuel : nat) :
  forall w : Window, exists new, files (final (exec_ env fuel w)) = new ++ files w.
Proof.
  induction fuel as [|fuel IH]; intros w.
  - exists []. reflexivity.
  - cbn [exec_]. unfold paintGL. destruct (geb _ _).
    + exists []. reflexivity.
    + destruct (IH (layer env w)) as (new1 & ->).
      destruct (layer_files w) as (new2 & ->).
      exists (new1 ++ new2). apply app_assoc.
Qed.

Lemma forget_files_final (o1 o2 : outcome) :
  forget_files o1 = forget_files o2 ->
  with_files [] (final o1) = with_files [] (final o2).
Proof. intros H. destruct o1, o2; exact (f_equal final H). Qed.

(** C7 (as amended).  What [QImage.save] answers has no influence on the
    run: with any two answers for every path, the same repaints happen and
    the run is in the same state after any number of them, files apart
    (so a failed save neither ends the run nor keeps later layers from
    being produced); and the files written earlier stay. *)
Theorem save_result_ignored (sink1 sink2 : string -> bool) (w : Window) (fuel : nat) :
  forget_files (exec_ (with_sink env sink1) fuel w)
  = forget_files (exec_ (with_sink env sink2) fuel w)
  /\ currentLayer (final (exec_ (with_sink env sink1) fuel w))
     = currentLayer (final (exec_ (with_sink env sink2) fuel w))
  /\ exists new, files (final (exec_ env fuel w)) = new ++ files w.
Proof.
  pose proof (exec_forget sink1 sink2 fuel w w eq_refl) as H.
  split; [exact H|]. split; [|apply exec_files].
  apply forget_files_final in H.
  set (o1 := exec_ (with_sink env sink1) fuel w) in *.
  set (o2 := exec_ (with_sink env sink2) fuel w) in *.
  clearbody o1 o2.
  change (currentLayer (with_files [] (final o1))
          = currentLayer (with_files [] (final o2))).
  rewrite H. reflexivity.
Qed.

End Save.

(** The counterexample to C7 as stated: the save of layer 1 fails, and the
    run goes on to produce and save layer 2 and ends normally. *)
Lemma failed_save_run_continues :
  let sink := fun path => negb (String.eqb path "slices/out0001.png") in
  match main (Demo.env64 sink)
          (Demo.tetrahedron (A:=binary64) 1%float) 0.5%float "slices" 10 with
  | Ok (Exited w) =>
      currentLayer w = 2 /\ List.map fst (files w) = ["slices/out0002.png"%string]
  | _ => False
  end.
Proof.
  vm_compute. split; reflexivity.
Qed.

(** ** C8: the projection and the initial model transform *)

Section Projection.

Local Open Scope Q_scope.



Context {A : Arith}.
Variable env : Env.



End Projection.


(** * Further properties of the code *)

(** ** The files of a run *)

Section Files.

Context {A : Arith}.
Variable env : Env.

Lemma files_gl_call (c : Window -> call) (y : Window) :
  files (gl_call env c y) = files y.
Proof. reflexivity. Qed.

Lemma renderSlice_passes_path (y : Window) :
  sliceSavePath (renderSlice_passes env y) = sliceSavePath y
  /\ currentLayer (renderSlice_passes env y) = currentLayer y
  /\ files (renderSlice_passes env y) = files y.
Proof. repeat split. Qed.

Lemma path_gl_call (c : Window -> call) (y : Window) :
  sliceSavePath (gl_call env c y) = sliceSavePath y.
Proof. reflexivity. Qed.

Lemma path_save (image : list Z) (path : string) (x : Window) :
  sliceSavePath (save env image path x) = sliceSavePath x.
Proof. unfold save. destruct (save_ok env path); reflexivity. Qed.

Lemma files_save (image : list Z) (path : string) (x : Window) :
  files (save env image path x)
  = (if save_ok env path then [(path, image)] else []) ++ files x.
Proof. unfold save. destruct (save_ok env path); reflexivity. Qed.

Lemma renderSlice_sliceSavePath (y : Window) :
  sliceSavePath (renderSlice env y) = sliceSavePath y.
Proof.
  unfold renderSlice, block; cbn [fold_left].
  rewrite path_gl_call, path_save.
  exact (proj1 (renderSlice_passes_path y)).
Qed.

(** What [renderSlice] adds to the files: the raster it reads back, under
    the name of the current layer, when the save succeeds. *)
Lemma renderSlice_files_eq (y : Window) :
  files (renderSlice env y)
  = (if save_ok env (slice_path y (currentLayer y))
     then [(slice_path y (currentLayer y), sliceRaster env y)]
     else []) ++ files y.
Proof.
  unfold renderSlice, block; cbn [fold_left].
  rewrite files_gl_call, files_save.
  destruct (renderSlice_passes_path y) as (-> & -> & ->).
  reflexivity.
Qed.

Lemma layer_files_eq (w : Window) :
  files (layer env w)
  = (if save_ok env (slice_path w (currentLayer w + 1))
     then [(slice_path w (currentLayer w + 1),
            sliceRaster env
              (draw env
                 (with_cursor (currentLayer w + 1)
                    (add (height w) (layerThickness w)) w)))]
     else []) ++ files w.
Proof.
  rewrite (layer_unfold env w), renderSlice_files_eq. reflexivity.
Qed.

Lemma layer_sliceSavePath (w : Window) :
  sliceSavePath (layer env w) = sliceSavePath w.
Proof.
  rewrite (layer_unfold env w), renderSlice_sliceSavePath. reflexivity.
Qed.

Lemma layers_sliceSavePath (n : nat) (w : Window) :
  sliceSavePath (layers env n w) = sliceSavePath w.
Proof.
  induction n as [|n IH]; [reflexivity|].
  rewrite layers_S, layer_sliceSavePath. exact IH.
Qed.

Lemma layers_currentLayer (n : nat) (w : Window) :
  currentLayer (layers env n w) = currentLayer w + Z.of_nat n.
Proof.
  pose proof (layers_cursor env n w) as H. unfold cursor in H. congruence.
Qed.

Lemma slice_path_layers (n : nat) (w : Window) (k : Z) :
  slice_path (layers env n w) k = slice_path w k.
Proof. unfold slice_path. rewrite layers_sliceSavePath. reflexivity. Qed.

(** X3.  The names of the files after [n] layers: those present before,
    and in front of them, most recent first, the names
    [out{:04d}.png] under [sliceSavePath] of the layers
    [currentLayer + 1], ..., [currentLayer + n] whose save succeeded; a
    run from [currentLayer = 0] numbers its files from 1. *)
Theorem files_after_layers (n : nat) (w : Window) :
  List.map fst (files (layers env n w))
  = rev (filter (save_ok env)
           (List.map (fun k => slice_path w (currentLayer w + Z.of_nat k))
              (seq 1 n)))
    ++ List.map fst (files w).
Proof.
  induction n as [|n IH]; [reflexivity|].
  rewrite layers_S, layer_files_eq, map_app, IH.
  rewrite seq_S, map_app, filter_app, rev_app_distr, <- app_assoc.
  f_equal.
  rewrite slice_path_layers, layers_currentLayer.
  cbn [List.map filter Nat.add].
  replace (currentLayer w + Z.of_nat n + 1)
    with (currentLayer w + Z.of_nat (S n)) by lia.
  destruct (save_ok env _); reflexivity.
Qed.

Lemma length_range (n : Z) : List.length (range n) = Z.to_nat n.
Proof. unfold range. rewrite length_map, length_seq. reflexivity. Qed.

Lemma length_pixels (w h : Z) :
  List.length (pixels w h) = (Z.to_nat h * Z.to_nat w)%nat.
Proof.
  unfold pixels. rewrite <- (length_range h).
  induction (range h) as [|y l IH]; [reflexivity|].
  cbn [flat_map List.length]. rewrite length_app, length_map, length_range, IH.
  reflexivity.
Qed.

Lemma sliceRaster_two_level (y : Window) :
  two_level_image env (sliceRaster env y).
Proof.
  split.
  - unfold sliceRaster, toImage. rewrite length_map. apply length_pixels.
  - unfold sliceRaster, toImage. apply Forall_forall.
    intros v Hv. apply in_map_iff in Hv. destruct Hv as (p & <- & _).
    rewrite color_renderSlice_passes. unfold slice_pixel. destruct (_ && _); [left | right]; reflexivity.
Qed.

(** X4.  Every image the layers write has as many pixels as the
    printer's raster, and each pixel has one of two grey values: that of
    the fragment shader's colour or that of opaque black.  The layers
    only add files, at most one each. *)
Theorem images_after_layers (n : nat) (w : Window) :
  exists new,
    files (layers env n w) = new ++ files w
    /\ (List.length new <= n)%nat
    /\ Forall (fun f => two_level_image env (snd f)) new.
Proof.
  induction n as [|n (new & E & L & F)].
  - exists []. repeat split; [apply Nat.le_refl | constructor].
  - rewrite layers_S, layer_files_eq, E.
    destruct (save_ok env _).
    + eexists (_ :: new). split; [reflexivity|]. split; [cbn; lia|].
      constructor; [apply sliceRaster_two_level | exact F].
    + exists new. split; [reflexivity|]. split; [lia | exact F].
Qed.

End Files.

(** ** File names *)

Section Names.

Local Open Scope string_scope.

Lemma length_append (s t : string) :
  String.length (s ++ t) = (String.length s + String.length t)%nat.
Proof. induction s as [|c s IH]; cbn; [reflexivity | rewrite IH; reflexivity]. Qed.

Lemma append_inj_l (p s t : string) : p ++ s = p ++ t -> s = t.
Proof.
  induction p as [|c p IH]; cbn; intros H; [exact H|].
  injection H as H. exact (IH H).
Qed.

Lemma append_inj_r (q : string) : forall s t : string, s ++ q = t ++ q -> s = t.
Proof.
  induction s as [|c s IH]; intros [|d t] H.
  - reflexivity.
  - apply (f_equal String.length) in H. cbn in H. rewrite length_append in H. lia.
  - apply (f_equal String.length) in H. cbn in H. rewrite length_append in H. lia.
  - cbn in H. injection H as -> H. f_equal. exact (IH t H).
Qed.

(** The zeros [pad] puts in front are read back as leading zeros. *)
Lemma uint_of_string_zeros (k : nat) (s : string) :
  NilEmpty.uint_of_string (String.concat EmptyString (repeat "0" k) ++ s)
  = option_map (Nat.iter k Decimal.D0) (NilEmpty.uint_of_string s).
Proof.
  induction k as [|k IH].
  - cbn. destruct (NilEmpty.uint_of_string s); reflexivity.
  - assert (E : String.concat EmptyString (repeat "0" (S k)) ++ s
                = String "0" (String.concat EmptyString (repeat "0" k) ++ s)).
    { destruct k; reflexivity. }
    rewrite E. cbn [NilEmpty.uint_of_string]. rewrite IH.
    destruct (NilEmpty.uint_of_string s); reflexivity.
Qed.

Lemma of_uint_D0 (d : Decimal.uint) : N.of_uint (Decimal.D0 d) = N.of_uint d.
Proof.
  rewrite <- (DecimalN.Unsigned.of_uint_norm (Decimal.D0 d)),
    <- (DecimalN.Unsigned.of_uint_norm d).
  reflexivity.
Qed.

Lemma of_uint_zeros (k : nat) (d : Decimal.uint) :
  N.of_uint (Nat.iter k Decimal.D0 d) = N.of_uint d.
Proof.
  induction k as [|k IH]; [reflexivity|].
  rewrite Nat.iter_succ, of_uint_D0. exact IH.
Qed.

Lemma string_of_uint_nonempty (d : Decimal.uint) :
  NilZero.string_of_uint d <> EmptyString.
Proof. destruct d; discriminate. Qed.

Lemma parse_pad (width : nat) (d : Decimal.uint) :
  parse_04d (pad width (NilZero.string_of_uint d)) = Some (N.of_uint d).
Proof.
  unfold parse_04d, pad.
  set (s := NilZero.string_of_uint d).
  set (z := String.concat EmptyString (repeat "0" (width - String.length s))).
  assert (Hs : s <> EmptyString) by apply string_of_uint_nonempty.
  assert (E : NilZero.uint_of_string (z ++ s) = NilEmpty.uint_of_string (z ++ s)).
  { destruct (z ++ s) eqn:Ez; [|reflexivity].
    destruct z; [cbn in Ez; congruence | discriminate]. }
  rewrite E. unfold z. rewrite uint_of_string_zeros.
  assert (E' : NilEmpty.uint_of_string s = NilZero.uint_of_string s).
  { destruct s; [congruence | reflexivity]. }
  rewrite E'. unfold s.
  destruct (NilZero.usu_gen d) as [U | U]; rewrite U; cbn [option_map];
    rewrite of_uint_zeros; [reflexivity|].
  destruct d; [reflexivity | rewrite NilZero.usu in U by discriminate; congruence ..].
Qed.

Lemma parse_format_04d (n : Z) :
  0 <= n -> parse_04d (format_04d n) = Some (Z.to_N n).
Proof.
  intros Hn. unfold format_04d.
  destruct n as [|q|q]; [| |lia]; rewrite parse_pad;
    rewrite DecimalN.Unsigned.of_to; reflexivity.
Qed.

Lemma format_04d_inj (j k : Z) :
  0 <= j -> 0 <= k -> format_04d j = format_04d k -> j = k.
Proof.
  intros Hj Hk E. apply (f_equal parse_04d) in E.
  rewrite !parse_format_04d in E by assumption.
  injection E as E. lia.
Qed.

Lemma path_join_inj (d x y : string) : path_join d x = path_join d y -> x = y.
Proof.
  unfold path_join. destruct (_ || _); intros H.
  - exact (append_inj_l _ _ _ H).
  - apply append_inj_l in H. exact (append_inj_l _ _ _ H).
Qed.

(** X5.  The layer number in a file name, zero-padded to four digits,
    reads back as the layer number, also when it has more than four
    digits: the padding never loses or changes a digit. *)
Theorem format_04d_round_trip (n : Z) :
  0 <= n -> parse_04d (format_04d n) = Some (Z.to_N n).
Proof. exact (parse_format_04d n). Qed.

(** X6.  Two layers with different numbers are saved under different
    paths, so no slice overwrites another. *)
Theorem slice_paths_distinct {A : Arith} (w : Window) (j k : Z) :
  0 <= j -> 0 <= k -> j <> k -> slice_path w j <> slice_path w k.
Proof.
  intros Hj Hk Hjk E. apply Hjk. unfold slice_path in E.
  apply path_join_inj, append_inj_l, append_inj_r in E.
  exact (format_04d_inj j k Hj Hk E).
Qed.

Lemma length_zeros (k : nat) :
  String.length (String.concat EmptyString (repeat "0" k)) = k.
Proof.
  induction k as [|k IH]; [reflexivity|].
  assert (E : String.concat EmptyString (repeat "0" (S k))
              = String "0" (String.concat EmptyString (repeat "0" k))).
  { destruct k; reflexivity. }
  rewrite E. cbn [String.length]. rewrite IH. reflexivity.
Qed.

Lemma length_pad (width : nat) (s : string) :
  String.length (pad width s) = Nat.max width (String.length s).
Proof. unfold pad. rewrite length_append, length_zeros. lia. Qed.

Lemma four_digits_below_10000 :
  forallb (fun n => Nat.eqb (String.length (format_04d n)) 4) (range 10000) = true.
Proof. vm_compute. reflexivity. Qed.

(** X20.  The layer number takes at least four characters in a file
    name, and exactly four up to layer 9999, so that up to there the names
    of the slices have the same length. *)
Theorem format_04d_width (n : Z) :
  0 <= n ->
  (4 <= String.length (format_04d n))%nat
  /\ (n <= 9999 -> String.length (format_04d n) = 4%nat).
Proof.
  intros Hn. split.
  - unfold format_04d. destruct n as [|q|q]; [| |lia]; rewrite length_pad;
      apply Nat.le_max_l.
  - intros Hle. pose proof four_digits_below_10000 as F.
    rewrite forallb_forall in F.
    apply Nat.eqb_eq, F. unfold range. apply in_map_iff.
    exists (Z.to_nat n). split; [lia|]. apply in_seq. lia.
Qed.

End Names.

Lemma format_04d_width_witness :
  (4 <= String.length (format_04d 42))%nat
  /\ (42 <= 9999 -> String.length (format_04d 42) = 4%nat).
Proof. apply (format_04d_width 42). lia. Defined.

Lemma format_04d_round_trip_witness :
  parse_04d (format_04d 12345) = Some (Z.to_N 12345).
Proof. apply (format_04d_round_trip 12345). lia. Defined.

Lemma slice_paths_distinct_witness :
  slice_path (@__init__ binary64 0.1%float "slices") 9
  <> slice_path (@__init__ binary64 0.1%float "slices") 10.
Proof.
  apply (slice_paths_distinct (@__init__ binary64 0.1%float "slices") 9 10); lia.
Defined.

(** ** Runs that do not end *)

Section Stall.

Context {A : Arith}.
Variable env : Env.

Lemma layers_totalThickness (n : nat) (w : Window) :
  totalThickness (layers env n w) = totalThickness w.
Proof.
  pose proof (layers_cursor env n w) as H. unfold cursor in H. congruence.
Qed.

Lemma layers_height (n : nat) (w : Window) :
  height (layers env n w) = accumulated (layerThickness w) n (height w).
Proof.
  pose proof (layers_cursor env n w) as H. unfold cursor in H. congruence.
Qed.

Lemma accumulated_stalled (t h : num) (n : nat) :
  add h t = h -> accumulated t n h = h.
Proof.
  intros H. induction n as [|n IH]; [reflexivity|].
  rewrite accumulated_S, IH. exact H.
Qed.

(** X7.  When adding the layer thickness leaves the height as it is (a
    layer thickness of 0, or one too small to change the sum) and the top
    is not reached, the run never ends: every repaint produces one more
    layer, with the next number, at the same height. *)
Theorem stalled_run_never_exits (w : Window) :
  done w = false ->
  add (height w) (layerThickness w) = height w ->
  forall fuel,
    exec_ env fuel w = Running (layers env fuel w)
    /\ currentLayer (layers env fuel w) = currentLayer w + Z.of_nat fuel
    /\ height (layers env fuel w) = height w.
Proof.
  intros Hd Hs fuel.
  assert (Hh : forall k, height (layers env k w) = height w).
  { intros k. rewrite layers_height. apply accumulated_stalled, Hs. }
  split; [|split; [|apply Hh]].
  - apply exec_running. intros k _. unfold done in *.
    rewrite Hh, layers_totalThickness. exact Hd.
  - pose proof (layers_cursor env fuel w) as H. unfold cursor in H. congruence.
Qed.

End Stall.

Lemma stalled_run_never_exits_witness :
  let env := Demo.env64 Demo.always in
  let w := Demo.window env (Demo.tetrahedron (A:=binary64) 1%float) 0%float in
  exec_ env 5 w = Running (layers env 5 w)
  /\ currentLayer (layers env 5 w) = currentLayer w + Z.of_nat 5
  /\ height (layers env 5 w) = height w.
Proof.
  intros env w. refine (stalled_run_never_exits env w _ _ 5%nat).
  - vm_compute. reflexivity.
  - vm_compute. reflexivity.
Defined.

(** ** Vertex buffers and render targets *)

Section Buffers.

Context {A : Arith}.
Variable env : Env.

Lemma length_vertices (ourMesh : Mesh) :
  List.length (flat_map (fun '(a, b, c) => [a; b; c]) ourMesh)
  = (3 * List.length ourMesh)%nat.
Proof.
  induction ourMesh as [|[[a b] c] l IH]; [reflexivity|].
  cbn [flat_map List.length app]. rewrite IH. lia.
Qed.

Lemma initializeGL_buffers (ourMesh : Mesh) (w0 w : Window) :
  initializeGL env ourMesh w0 = Ok w ->
  numOfVerts w = Z.of_nat (List.length ourMesh) * 3
  /\ vbo (gl w) vertVAO
     = List.map (fun '(x, y, z) => (single x, single y, single z))
         (flat_map (fun '(a, b, c) => [a; b; c]) ourMesh)
  /\ vbo (gl w) maskVAO = maskVert env
  /\ bound_vao (gl w) = None.
Proof.
  unfold initializeGL, loadMesh, bind.
  destruct (np_min (axis X ourMesh)); [|discriminate].
  destruct (np_max (axis X ourMesh)); [|discriminate].
  destruct (np_min (axis Y ourMesh)); [|discriminate].
  destruct (np_max (axis Y ourMesh)); [|discriminate].
  destruct (np_min (axis Z_ ourMesh)); [|discriminate].
  destruct (np_max (axis Z_ ourMesh)); [|discriminate].
  intros H. injection H as <-. repeat split.
Qed.

Lemma draw_vbo (w : Window) : vbo (gl (draw env w)) = vbo (gl w).
Proof. reflexivity. Qed.

Lemma layer_vbo (w : Window) : vbo (gl (layer env w)) = vbo (gl w).
Proof. rewrite (layer_unfold env w), renderSlice_vbo. reflexivity. Qed.

Lemma layers_vbo (n : nat) (w : Window) :
  vbo (gl (layers env n w)) = vbo (gl w).
Proof.
  induction n as [|n IH]; [reflexivity|].
  rewrite layers_S, layer_vbo. exact IH.
Qed.

Lemma layers_numOfVerts (n : nat) (w : Window) :
  numOfVerts (layers env n w) = numOfVerts w.
Proof.
  pose proof (layers_cursor env n w) as H. unfold cursor in H. congruence.
Qed.

(** X12.  After [initializeGL] the vertex buffer of the mesh holds
    exactly [numOfVerts] vertices (three per triangle) and the buffer of
    the mask quad six, which are the counts of the draw calls; no vertex
    array is left bound; and the layers change neither the buffers nor
    [numOfVerts], so no draw call of the run reads past a buffer. *)
Theorem buffers_match_draw_counts (ourMesh : Mesh) (w0 w : Window) (n : nat) :
  initializeGL env ourMesh w0 = Ok w ->
  Z.of_nat (List.length (vbo (gl (layers env n w)) vertVAO))
    = numOfVerts (layers env n w)
  /\ List.length (vbo (gl (layers env n w)) maskVAO) = 6%nat
  /\ numOfVerts (layers env n w) = Z.of_nat (List.length ourMesh) * 3
  /\ bound_vao (gl w) = None.
Proof.
  intros H. destruct (initializeGL_buffers ourMesh w0 w H) as (Hn & Hv & Hm & Hb).
  rewrite layers_vbo, layers_numOfVerts, Hv, Hm, Hn.
  rewrite length_map, length_vertices.
  repeat split; [lia | exact Hb].
Qed.

End Buffers.

Lemma buffers_match_draw_counts_witness :
  let env := Demo.env64 Demo.always in
  let ourMesh := Demo.tetrahedron (A:=binary64) 1%float in
  let w := Demo.window env ourMesh 0.25%float in
  Z.of_nat (List.length (vbo (gl (layers env 2 w)) vertVAO))
    = numOfVerts (layers env 2 w)
  /\ List.length (vbo (gl (layers env 2 w)) maskVAO) = 6%nat
  /\ numOfVerts (layers env 2 w) = Z.of_nat (List.length ourMesh) * 3
  /\ bound_vao (gl w) = None.
Proof.
  intros env ourMesh w.
  apply (buffers_match_draw_counts env ourMesh
           (resize SCR_WIDTH (SCR_HEIGHT env) (@__init__ binary64 0.25%float "slices"))
           w 2).
  apply (started_window env ourMesh 0.25%float).
  vm_compute. reflexivity.
Defined.

Section Targets.

Context {A : Arith}.
Variable env : Env.

Lemma window_fb_renderSlice_passes (w : Window) :
  window_fb (gl (renderSlice_passes env w)) = window_fb (gl w).
Proof.
  destruct w as [nv bo tt cl he lt sp pr mo sz g lg fs].
  destruct g as [vp st cf cm cc sf so bv vb pb un fb wfb sfb].
  lazy; reflexivity.
Qed.

Lemma window_fb_release (g : GLstate) :
  window_fb (exec env sliceFbo_release g) = window_fb g.
Proof. reflexivity. Qed.

Lemma fbo_bound_release (g : GLstate) :
  fbo_bound (exec env sliceFbo_release g) = false.
Proof. reflexivity. Qed.

Lemma window_fb_renderSlice (w : Window) :
  window_fb (gl (renderSlice env w)) = window_fb (gl w).
Proof.
  unfold renderSlice, block; cbn [fold_left].
  rewrite gl_gl_call, window_fb_release, gl_save.
  apply window_fb_renderSlice_passes.
Qed.

Lemma fbo_bound_renderSlice (w : Window) :
  fbo_bound (gl (renderSlice env w)) = false.
Proof.
  unfold renderSlice, block; cbn [fold_left].
  rewrite gl_gl_call. apply fbo_bound_release.
Qed.

Lemma slice_fb_draw (w : Window) :
  fbo_bound (gl w) = false ->
  slice_fb (gl (draw env w)) = slice_fb (gl w)
  /\ fbo_bound (gl (draw env w)) = false.
Proof.
  destruct w as [nv bo tt cl he lt sp pr mo sz g lg fs].
  destruct g as [vp st cf cm cc sf so bv vb pb un fb wfb sfb].
  cbn [fbo_bound gl]. intros ->. split; lazy; reflexivity.
Qed.

(** X13.  The two render targets are never mixed up: [renderSlice]
    leaves the window's framebuffer as it is and ends with the
    framebuffer object released, and [draw], entered with the framebuffer
    object released, leaves the framebuffer object as it is; so after a
    layer the window shows what [draw] drew. *)
Theorem render_targets_separate (w : Window) :
  fbo_bound (gl w) = false ->
  slice_fb (gl (draw env w)) = slice_fb (gl w)
  /\ window_fb (gl (renderSlice env (draw env w))) = window_fb (gl (draw env w))
  /\ window_fb (gl (layer env w))
     = window_fb (gl (draw env
         (with_cursor (currentLayer w + 1) (add (height w) (layerThickness w)) w)))
  /\ fbo_bound (gl (layer env w)) = false.
Proof.
  intros H. split; [exact (proj1 (slice_fb_draw w H))|].
  split; [apply window_fb_renderSlice|].
  rewrite (layer_unfold env w).
  split; [apply window_fb_renderSlice | apply fbo_bound_renderSlice].
Qed.

End Targets.

Lemma render_targets_separate_witness :
  let env := Demo.env64 Demo.always in
  let w := Demo.window env (Demo.tetrahedron (A:=binary64) 1%float) 0.25%float in
  slice_fb (gl (draw env w)) = slice_fb (gl w)
  /\ window_fb (gl (renderSlice env (draw env w))) = window_fb (gl (draw env w))
  /\ window_fb (gl (layer env w))
     = window_fb (gl (draw env
         (with_cursor (currentLayer w + 1) (add (height w) (layerThickness w)) w)))
  /\ fbo_bound (gl (layer env w)) = false.
Proof.
  intros env w. apply (render_targets_separate env w).
  vm_compute. reflexivity.
Defined.

(** ** The size of the window *)

Section Resize.

Context {A : Arith}.
Variable env : Env.

Local Opaque QMatrix4x4.translate.

Lemma offscreen_resize (a b : Z) (w : Window) :
  offscreen (resize a b w) = offscreen w.
Proof. reflexivity. Qed.

Lemma files_offscreen (w : Window) : files (offscreen w) = files w.
Proof. reflexivity. Qed.

Lemma cursor_offscreen (w : Window) : cursor (offscreen w) = cursor w.
Proof. reflexivity. Qed.

Lemma offscreen_with_cursor (l : Z) (h : num) (w : Window) :
  offscreen (with_cursor l h w) = with_cursor l h (offscreen w).
Proof. reflexivity. Qed.

Lemma with_cursor_offscreen (w w' : Window) :
  offscreen w = offscreen w' ->
  offscreen (with_cursor (currentLayer w + 1) (add (height w) (layerThickness w)) w)
  = offscreen
      (with_cursor (currentLayer w' + 1) (add (height w') (layerThickness w')) w').
Proof.
  intros H. rewrite !offscreen_with_cursor, <- H.
  pose proof (f_equal cursor H) as C. rewrite !cursor_offscreen in C.
  unfold cursor in C. injection C as <- <- <- _ _. reflexivity.
Qed.

Lemma renderSlice_passes_inputs (y : Window) :
  offscreen (renderSlice_passes env y)
  = offscreen (renderSlice_passes env (rendering_inputs y)).
Proof.
  destruct y as [nv bo tt cl he lt sp pr mo sz g lg fs].
  destruct g as [vp st cf cm cc sf so bv vb pb un fb wfb sfb].
  lazy; reflexivity.
Qed.

Lemma draw_inputs (w : Window) :
  rendering_inputs (draw env w) = rendering_inputs (draw env (offscreen w)).
Proof.
  destruct w as [nv bo tt cl he lt sp pr mo sz g lg fs].
  destruct g as [vp st cf cm cc sf so bv vb pb un fb wfb sfb].
  lazy; reflexivity.
Qed.

(** The rendering of a layer does not look at the screen. *)
Lemma passes_draw_offscreen (w w' : Window) :
  offscreen w = offscreen w' ->
  offscreen (renderSlice_passes env (draw env w))
  = offscreen (renderSlice_passes env (draw env w')).
Proof.
  intros H.
  rewrite (renderSlice_passes_inputs (draw env w)).
  rewrite (renderSlice_passes_inputs (draw env w')).
  rewrite (draw_inputs w), (draw_inputs w'), H. reflexivity.
Qed.

(** The read-back, the save and the release, on the rendered window. *)
Lemma save_release_offscreen (x : Window) :
  offscreen
    (gl_call env (fun _ => sliceFbo_release)
       (save env (toImage env x)
          (path_join (sliceSavePath x)
             ("out" ++ format_04d (currentLayer x) ++ ".png")) x))
  = offscreen
      (gl_call env (fun _ => sliceFbo_release)
         (save env (toImage env (offscreen x))
            (path_join (sliceSavePath (offscreen x))
               ("out" ++ format_04d (currentLayer (offscreen x)) ++ ".png"))
            (offscreen x))).
Proof.
  change (toImage env (offscreen x)) with (toImage env x).
  change (sliceSavePath (offscreen x)) with (sliceSavePath x).
  change (currentLayer (offscreen x)) with (currentLayer x).
  generalize (toImage env x).
  generalize (path_join (sliceSavePath x)
                ("out" ++ format_04d (currentLayer x) ++ ".png")).
  intros path image. unfold save.
  destruct (save_ok env path); reflexivity.
Qed.

Lemma renderSlice_offscreen (y y' : Window) :
  offscreen (renderSlice_passes env y) = offscreen (renderSlice_passes env y') ->
  offscreen (renderSlice env y) = offscreen (renderSlice env y').
Proof.
  intros H. unfold renderSlice, block; cbn [fold_left].
  rewrite (save_release_offscreen (renderSlice_passes env y)).
  rewrite (save_release_offscreen (renderSlice_passes env y')).
  rewrite H. reflexivity.
Qed.

(** A layer does not look at the screen. *)
Lemma layer_offscreen (w w' : Window) :
  offscreen w = offscreen w' ->
  offscreen (layer env w) = offscreen (layer env w').
Proof.
  intros H. rewrite (layer_unfold env w), (layer_unfold env w').
  apply renderSlice_offscreen, passes_draw_offscreen, with_cursor_offscreen, H.
Qed.

Lemma layers_offscreen (n : nat) (w w' : Window) :
  offscreen w = offscreen w' ->
  offscreen (layers env n w) = offscreen (layers env n w').
Proof.
  intros H. induction n as [|n IH]; [exact H|].
  rewrite !layers_S. apply layer_offscreen, IH.
Qed.

(** X14.  The slices do not depend on the size of the window: after any
    number of layers, a window that was resized beforehand has written
    the same files with the same contents, and has the same layer number
    and height, as one that was not. *)
Theorem slices_independent_of_window_size (a b : Z) (n : nat) (w : Window) :
  files (layers env n (resize a b w)) = files (layers env n w)
  /\ cursor (layers env n (resize a b w)) = cursor (layers env n w)
  /\ slice_fb (gl (layers env n (resize a b w))) = slice_fb (gl (layers env n w)).
Proof.
  pose proof (layers_offscreen n (resize a b w) w (offscreen_resize a b w)) as H.
  split; [|split].
  - rewrite <- (files_offscreen (layers env n (resize a b w))), H. reflexivity.
  - rewrite <- (cursor_offscreen (layers env n (resize a b w))), H. reflexivity.
  - change (slice_fb (gl (offscreen (layers env n (resize a b w))))
            = slice_fb (gl (offscreen (layers env n w)))).
    rewrite H. reflexivity.
Qed.

End Resize.

(** ** Key presses *)

Section Keys.

Context {A : Arith}.
Variable env : Env.

Lemma app_exec_paints (n : nat) :
  forall w : Window, app_exec env (repeat Paint n) w = exec_ env n w.
Proof.
  induction n as [|n IH]; intros w; [reflexivity|].
  cbn [repeat app_exec exec_]. destruct (paintGL env w); [reflexivity | apply IH].
Qed.

Lemma app_exec_app (pre post : list event) :
  forall w : Window,
    app_exec env (pre ++ post) w
    = match app_exec env pre w with
      | Exited x => Exited x
      | Running x => app_exec env post x
      end.
Proof.
  induction pre as [|e pre IH]; intros w; [reflexivity|].
  cbn [app app_exec].
  destruct (match e with
            | Paint => paintGL env w
            | KeyPress key => keyPressEvent key w
            end); [reflexivity | apply IH].
Qed.

Lemma app_exec_running (pre : list event) :
  forall w x : Window,
    app_exec env pre w = Running x ->
    x = layers env
          (List.length
             (filter (fun e => match e with Paint => true | KeyPress _ => false end)
                pre)) w.
Proof.
  induction pre as [|e pre IH]; intros w x H.
  - cbn in H. injection H as <-. reflexivity.
  - cbn [app_exec] in H. destruct e as [|key]; cbn [filter List.length].
    + unfold paintGL in H. destruct (geb _ _); [discriminate|].
      rewrite (IH _ _ H). rewrite layers_shift. reflexivity.
    + unfold keyPressEvent in H. destruct (key =? Key_Escape); [discriminate|].
      exact (IH _ _ H).
Qed.

(** X17.  A key other than Escape changes nothing: the run with such
    key presses is the run without them; and with no key pressed at all
    it is the sequence of repaints. *)
Theorem other_keys_ignored (events : list event) (w : Window) :
  app_exec env events w
  = app_exec env (filter (fun e => negb (ignored e)) events) w
  /\ forall n, app_exec env (repeat Paint n) w = exec_ env n w.
Proof.
  split; [|intros n; apply app_exec_paints].
  revert w. induction events as [|e events IH]; intros w; [reflexivity|].
  destruct e as [|key]; cbn [filter ignored negb app_exec].
  - destruct (paintGL env w); [reflexivity | apply IH].
  - unfold keyPressEvent.
    destruct (key =? Key_Escape) eqn:E; cbn [negb app_exec].
    + unfold keyPressEvent. rewrite E. reflexivity.
    + apply IH.
Qed.

(** X18.  Escape ends the run at once: pressed while the run is going
    on, after some repaints and other keys, it leaves the window as the
    layers of these repaints made it, whatever events follow. *)
Theorem escape_exits (pre post : list event) (w x : Window) :
  app_exec env pre w = Running x ->
  app_exec env (pre ++ KeyPress Key_Escape :: post) w = Exited x
  /\ x = layers env
           (List.length
              (filter (fun e => match e with Paint => true | KeyPress _ => false end)
                 pre)) w.
Proof.
  intros H. split; [|exact (app_exec_running pre w x H)].
  rewrite app_exec_app, H. reflexivity.
Qed.

End Keys.

Lemma escape_exits_witness :
  let env := Demo.env64 Demo.always in
  let w := Demo.window env (Demo.tetrahedron (A:=binary64) 1%float) 0.25%float in
  app_exec env ([Paint; KeyPress 65] ++ KeyPress Key_Escape :: [Paint]) w
  = Exited (layers env 1 w)
  /\ layers env 1 w
     = layers env
         (List.length
            (filter (fun e => match e with Paint => true | KeyPress _ => false end)
               [Paint; KeyPress 65])) w.
Proof.
  intros env w.
  apply (escape_exits env [Paint; KeyPress 65] [Paint] w (layers env 1 w)).
  cbn [app_exec]. rewrite (paintGL_not_done env w) by (vm_compute; reflexivity).
  reflexivity.
Defined.

(** ** The directory of the slices *)

Section Paths.

Local Open Scope string_scope.

Lemma append_assoc (a b c : string) : (a ++ b) ++ c = a ++ (b ++ c).
Proof. induction a as [|x a IH]; cbn; [reflexivity | rewrite IH; reflexivity]. Qed.

Lemma substring_prefix (p s : string) :
  substring 0 (String.length p) (p ++ s) = p.
Proof.
  induction p as [|c p IH]; cbn.
  - destruct s; reflexivity.
  - rewrite IH. reflexivity.
Qed.

Lemma rfind_slash_app (d b : string) :
  rfind_slash b = 0%nat ->
  rfind_slash (d ++ String "/" b) = S (String.length d).
Proof.
  intros Hb. induction d as [|c d IH]; cbn.
  - rewrite Hb. reflexivity.
  - cbn in IH. rewrite IH. reflexivity.
Qed.

Lemma ends_with_slash_cons (c : ascii) (s : string) :
  ends_with_slash (String c s)
  = match s with
    | EmptyString => Ascii.eqb c "/"
    | String _ _ => ends_with_slash s
    end.
Proof.
  unfold ends_with_slash. cbn [String.length]. rewrite Nat.sub_1_r. cbn [Nat.pred].
  destruct s as [|c' s']; [reflexivity|].
  cbn [String.length String.get]. rewrite Nat.sub_1_r. reflexivity.
Qed.

Lemma rstrip_keeps (d : string) :
  ends_with_slash d = false -> rstrip_slashes d = d.
Proof.
  induction d as [|c d IH]; [reflexivity|].
  rewrite ends_with_slash_cons. cbn [rstrip_slashes].
  destruct d as [|c' d'].
  - intros ->. reflexivity.
  - intros H. rewrite (IH H). reflexivity.
Qed.

Lemma rstrip_trailing_slash (d : string) :
  rstrip_slashes (d ++ "/") = rstrip_slashes d.
Proof.
  induction d as [|c d IH]; [reflexivity|].
  cbn [append rstrip_slashes]. rewrite IH. reflexivity.
Qed.

Lemma all_slashes_ends (d : string) :
  d <> EmptyString -> ends_with_slash d = false -> all_slashes (d ++ "/") = false.
Proof.
  induction d as [|c d IH]; [congruence|].
  intros _. rewrite ends_with_slash_cons. cbn [append all_slashes].
  destruct d as [|c' d'].
  - intros ->. reflexivity.
  - intros H. rewrite IH by (discriminate || exact H).
    apply andb_false_r.
Qed.

Lemma dirname_join (d b : string) :
  rfind_slash b = 0%nat ->
  ends_with_slash d = false ->
  dirname (d ++ String "/" b)
  = match d with EmptyString => "/" | _ => d end.
Proof.
  intros Hb Hd. unfold dirname.
  rewrite (rfind_slash_app d b Hb).
  replace (d ++ String "/" b) with ((d ++ "/") ++ b)
    by (rewrite append_assoc; reflexivity).
  replace (S (String.length d)) with (String.length (d ++ "/"))
    by (rewrite length_append; cbn; lia).
  rewrite substring_prefix.
  destruct d as [|c d]; [reflexivity|].
  replace (String.eqb (String c d ++ "/") EmptyString) with false by reflexivity.
  rewrite all_slashes_ends by (discriminate || exact Hd).
  cbn [negb andb]. rewrite rstrip_trailing_slash. apply rstrip_keeps, Hd.
Qed.

Lemma dirname_no_slash (b : string) :
  rfind_slash b = 0%nat -> dirname b = EmptyString.
Proof.
  intros Hb. unfold dirname. rewrite Hb.
  destruct b; reflexivity.
Qed.

(** X19.  [main] puts the slices in the directory [slices] next to the
    STL file: for a file name [b] without a slash ([rfind_slash b = 0]) in
    a directory [d] that is written without a slash at its end,
    [sliceSavePath] is [d/slices] (and [/slices] for a file in the root
    directory, [d] empty); for a file name without a directory it is
    [slices], relative to the working directory. *)
Theorem slices_next_to_stl (d b : string) :
  rfind_slash b = 0%nat ->
  ends_with_slash d = false ->
  main_sliceSavePath (d ++ "/" ++ b) = d ++ "/slices"
  /\ main_sliceSavePath b = "slices".
Proof.
  intros Hb Hd. unfold main_sliceSavePath. split.
  - change (d ++ "/" ++ b) with (d ++ String "/" b).
    rewrite (dirname_join d b Hb Hd).
    destruct d as [|c d]; [reflexivity|].
    unfold path_join. rewrite Hd.
    replace (String.eqb (String c d) EmptyString) with false by reflexivity.
    reflexivity.
  - rewrite (dirname_no_slash b Hb). reflexivity.
Qed.

End Paths.

Lemma slices_next_to_stl_witness :
  main_sliceSavePath ("/home/user/models" ++ "/" ++ "part.stl")
  = ("/home/user/models" ++ "/slices")%string
  /\ main_sliceSavePath "part.stl" = "slices"%string.
Proof.
  apply (slices_next_to_stl "/home/user/models" "part.stl"); reflexivity.
Defined.

